(** * Reaction prompts of [classes/paginator.py]

    A shallow embedding of the reaction based prompts ([BasePaginator],
    [Link], [Update], [Choose]) together with the part of the messaging
    platform they talk to, and the properties of the prompts.

    Conventions.
    - A Python [str] is a list of code points, so that [len] is [length].
    - A Python object whose attributes start as [None] is a record of
      options; reading an attribute of [None] raises [AttributeError].
    - A method is a computation over a store made of the prompt object and
      of the platform.  A raised exception keeps the store as it was when
      the exception was raised: Python does not roll mutations back. *)

From Stdlib Require Import String Ascii DecimalString DecimalNat QArith_base.
From Stdlib Require Import List ZArith NArith Bool Arith Lia.
Import ListNotations.

Local Open Scope Z_scope.

(** ** Strings *)

Definition char : Type := N.
Definition str : Type := list char.

(** An ASCII literal of the source. *)
Definition lit (s : string) : str :=
  List.map N_of_ascii (list_ascii_of_string s).

(** [x == y] on [str]. *)
Fixpoint str_eqb (a b : str) : bool :=
  match a, b with
  | [], [] => true
  | x :: a', y :: b' => N.eqb x y && str_eqb a' b'
  | _, _ => false
  end.

(** [sep.join(parts)]. *)
Fixpoint join (sep : str) (parts : list str) : str :=
  match parts with
  | [] => []
  | [p] => p
  | p :: rest => p ++ sep ++ join sep rest
  end.

(** [str(n)] for a non-negative [int]. *)
Definition str_of_nat (n : nat) : str :=
  lit (NilEmpty.string_of_uint (Nat.to_uint n)).

(** [bool(s)] for an optional string: [None] and the empty string are falsy. *)
Definition truthy (s : option str) : bool :=
  match s with
  | Some (_ :: _) => true
  | _ => false
  end.

(** ** Values and exceptions *)

(** The values a prompt resolves to: [None] or a string. *)
Inductive pyval : Type :=
| PyNone
| PyStr (s : str).

(** [f"{v}"]. *)
Definition format (v : pyval) : str :=
  match v with
  | PyNone => lit "None"
  | PyStr s => s
  end.

Inductive exn : Type :=
| HTTPException
| Forbidden
| NotFound
| TimeoutError
| NoChoice
| CannotAddReactions
| NotImplementedError
| AttributeError
| TypeError
| ValueError
| IndexError.

Definition exn_eqb (a b : exn) : bool :=
  match a, b with
  | HTTPException, HTTPException
  | Forbidden, Forbidden
  | NotFound, NotFound
  | TimeoutError, TimeoutError
  | NoChoice, NoChoice
  | CannotAddReactions, CannotAddReactions
  | NotImplementedError, NotImplementedError
  | AttributeError, AttributeError
  | TypeError, TypeError
  | ValueError, ValueError
  | IndexError, IndexError => true
  | _, _ => false
  end.

(** [issubclass]: [Forbidden] and [NotFound] derive from [HTTPException]. *)
Definition issubclass (e cls : exn) : bool :=
  match e, cls with
  | Forbidden, HTTPException => true
  | NotFound, HTTPException => true
  | _, _ => exn_eqb e cls
  end.

(** [except (c1, c2, ...)]: does the clause catch [e]? *)
Definition caught_by (classes : list exn) (e : exn) : bool :=
  existsb (issubclass e) classes.

(** What a request to the platform can fail with. *)
Inductive http_error : Type :=
| ErrHTTP
| ErrForbidden
| ErrNotFound.

Definition exn_of (f : http_error) : exn :=
  match f with
  | ErrHTTP => HTTPException
  | ErrForbidden => Forbidden
  | ErrNotFound => NotFound
  end.

(** ** The platform's objects *)

Record User : Type := {
  user_id : Z;
  user_str : str;      (* str(user) *)
  avatar_url : str
}.

Record Bot : Type := {
  bot_user : User;     (* bot.user *)
  color : Z -> Z       (* bot.color(user_id) *)
}.

Record Message : Type := { message_id : Z }.

Record Reaction : Type := {
  reaction_message : Message;   (* reaction.message *)
  emoji : str                   (* str(reaction.emoji), which is str(reaction) *)
}.

Record Permissions : Type := { add_reactions_allowed : bool }.

Record Channel : Type := { permissions_for : User -> Permissions }.

Record Context : Type := {
  ctx_bot : Bot;
  ctx_author : User;
  ctx_channel : Channel;
  ctx_me : User
}.

Record Embed : Type := {
  embed_color : Z;
  embed_author : option (str * str);   (* name, icon_url *)
  embed_title : option str;
  embed_description : option str;
  embed_image : option str;
  embed_footer : option str;
  embed_fields : list (str * str)
}.

Definition new_embed (c : Z) : Embed :=
  {| embed_color := c; embed_author := None; embed_title := None;
     embed_description := None; embed_image := None; embed_footer := None;
     embed_fields := [] |}.

Definition set_author (e : Embed) (name icon : str) : Embed :=
  {| embed_color := embed_color e; embed_author := Some (name, icon);
     embed_title := embed_title e; embed_description := embed_description e;
     embed_image := embed_image e; embed_footer := embed_footer e;
     embed_fields := embed_fields e |}.

Definition set_title (e : Embed) (t : str) : Embed :=
  {| embed_color := embed_color e; embed_author := embed_author e;
     embed_title := Some t; embed_description := embed_description e;
     embed_image := embed_image e; embed_footer := embed_footer e;
     embed_fields := embed_fields e |}.

Definition set_embed_description (e : Embed) (d : str) : Embed :=
  {| embed_color := embed_color e; embed_author := embed_author e;
     embed_title := embed_title e; embed_description := Some d;
     embed_image := embed_image e; embed_footer := embed_footer e;
     embed_fields := embed_fields e |}.

Definition set_image (e : Embed) (url : str) : Embed :=
  {| embed_color := embed_color e; embed_author := embed_author e;
     embed_title := embed_title e; embed_description := embed_description e;
     embed_image := Some url; embed_footer := embed_footer e;
     embed_fields := embed_fields e |}.

Definition set_footer (e : Embed) (text : str) : Embed :=
  {| embed_color := embed_color e; embed_author := embed_author e;
     embed_title := embed_title e; embed_description := embed_description e;
     embed_image := embed_image e; embed_footer := Some text;
     embed_fields := embed_fields e |}.

Definition add_field (e : Embed) (name value : str) : Embed :=
  {| embed_color := embed_color e; embed_author := embed_author e;
     embed_title := embed_title e; embed_description := embed_description e;
     embed_image := embed_image e; embed_footer := embed_footer e;
     embed_fields := embed_fields e ++ [(name, value)] |}.

(** ** The prompt object *)

(** [self.reactions] is a [dict] from marker to value in [Link], a [list] of
    markers in [Choose]. A [dict] keeps its keys in insertion order. *)
Inductive Reactions : Type :=
| RDict (d : list (str * pyval))
| RList (l : list str).

(** The slots of [BasePaginator] and of [Update]. *)
Record Paginator : Type := {
  entries : option (list str);
  timeout : Q;
  title : option str;
  footer : option str;
  image : option str;
  reactions : option Reactions;
  embed : option Embed;
  description : list str;
  ctx : option Context;
  bot : option Bot;
  author : option User;
  message : option Message;
  platform : option str;
  username : option str
}.

Definition with_reactions (v : option Reactions) (p : Paginator) : Paginator :=
  {| entries := entries p; timeout := timeout p; title := title p;
     footer := footer p; image := image p; reactions := v; embed := embed p;
     description := description p; ctx := ctx p; bot := bot p;
     author := author p; message := message p; platform := platform p;
     username := username p |}.

Definition with_embed (v : option Embed) (p : Paginator) : Paginator :=
  {| entries := entries p; timeout := timeout p; title := title p;
     footer := footer p; image := image p; reactions := reactions p; embed := v;
     description := description p; ctx := ctx p; bot := bot p;
     author := author p; message := message p; platform := platform p;
     username := username p |}.

Definition with_description (v : list str) (p : Paginator) : Paginator :=
  {| entries := entries p; timeout := timeout p; title := title p;
     footer := footer p; image := image p; reactions := reactions p;
     embed := embed p; description := v; ctx := ctx p; bot := bot p;
     author := author p; message := message p; platform := platform p;
     username := username p |}.

Definition with_ctx (v : option Context) (p : Paginator) : Paginator :=
  {| entries := entries p; timeout := timeout p; title := title p;
     footer := footer p; image := image p; reactions := reactions p;
     embed := embed p; description := description p; ctx := v; bot := bot p;
     author := author p; message := message p; platform := platform p;
     username := username p |}.

Definition with_bot (v : option Bot) (p : Paginator) : Paginator :=
  {| entries := entries p; timeout := timeout p; title := title p;
     footer := footer p; image := image p; reactions := reactions p;
     embed := embed p; description := description p; ctx := ctx p; bot := v;
     author := author p; message := message p; platform := platform p;
     username := username p |}.

Definition with_author (v : option User) (p : Paginator) : Paginator :=
  {| entries := entries p; timeout := timeout p; title := title p;
     footer := footer p; image := image p; reactions := reactions p;
     embed := embed p; description := description p; ctx := ctx p;
     bot := bot p; author := v; message := message p; platform := platform p;
     username := username p |}.

Definition with_message (v : option Message) (p : Paginator) : Paginator :=
  {| entries := entries p; timeout := timeout p; title := title p;
     footer := footer p; image := image p; reactions := reactions p;
     embed := embed p; description := description p; ctx := ctx p;
     bot := bot p; author := author p; message := v; platform := platform p;
     username := username p |}.

Definition with_platform (v : option str) (p : Paginator) : Paginator :=
  {| entries := entries p; timeout := timeout p; title := title p;
     footer := footer p; image := image p; reactions := reactions p;
     embed := embed p; description := description p; ctx := ctx p;
     bot := bot p; author := author p; message := message p; platform := v;
     username := username p |}.

Definition with_username (v : option str) (p : Paginator) : Paginator :=
  {| entries := entries p; timeout := timeout p; title := title p;
     footer := footer p; image := image p; reactions := reactions p;
     embed := embed p; description := description p; ctx := ctx p;
     bot := bot p; author := author p; message := message p;
     platform := platform p; username := v |}.

(** ** The platform *)

(** A request made to the platform. *)
Inductive Call : Type :=
| CallSend (e : option Embed)
| CallAddReaction (m : Z) (marker : str)
| CallDelete (m : Z).

(** A coroutine handed to [loop.create_task] and never awaited. *)
Inductive Task : Type :=
| TaskAddReactions.

Record World : Type := {
  posted : list (Z * list str);   (* the messages that exist, with their markers *)
  calls : list Call;              (* the requests made so far, oldest first *)
  tasks : list Task               (* the tasks created so far *)
}.

(** What the surroundings decide: whether the n-th request fails, the
    identity given to a message sent by the n-th request, the
    [reaction_add] events dispatched while a wait is pending, in order, and
    the translation catalogue behind [_]. *)
Record Env : Type := {
  fault : nat -> option http_error;
  fresh_id : nat -> Z;
  reaction_adds : list (Reaction * User);
  gettext : str -> str
}.

Fixpoint lookup_message (id : Z) (l : list (Z * list str)) : option (list str) :=
  match l with
  | [] => None
  | (i, rs) :: l' => if i =? id then Some rs else lookup_message id l'
  end.

Fixpoint attach (id : Z) (marker : str) (l : list (Z * list str))
  : list (Z * list str) :=
  match l with
  | [] => []
  | (i, rs) :: l' =>
      if i =? id then (i, rs ++ [marker]) :: l'
      else (i, rs) :: attach id marker l'
  end.

Definition remove_message (id : Z) (l : list (Z * list str))
  : list (Z * list str) :=
  filter (fun e => negb (fst e =? id)) l.

(** ** Computations *)

Inductive Outcome (A : Type) : Type :=
| Return (a : A)
| Raise (e : exn).
Arguments Return {A} a.
Arguments Raise {A} e.

Record Store : Type := { obj : Paginator; world : World }.

Definition M (A : Type) : Type := Store -> Outcome A * Store.

Definition ret {A} (a : A) : M A := fun st => (Return a, st).

Definition raise {A} (e : exn) : M A := fun st => (Raise e, st).

Definition bind {A B} (m : M A) (k : A -> M B) : M B :=
  fun st =>
    match m st with
    | (Return a, st') => k a st'
    | (Raise e, st') => (Raise e, st')
    end.

Declare Scope py_scope.
Delimit Scope py_scope with py.
Notation "x <- m ;; k" := (bind m (fun x => k))
  (at level 61, m at next level, right associativity) : py_scope.
Notation "m ;; k" := (bind m (fun _ => k))
  (at level 61, right associativity) : py_scope.
Local Open Scope py_scope.

(** [self]. *)
Definition get_self : M Paginator := fun st => (Return (obj st), st).

(** [self.x.y] where [self.x] may still be [None]. *)
Definition attr {A} (field : Paginator -> option A) : M A :=
  fun st =>
    match field (obj st) with
    | Some a => (Return a, st)
    | None => (Raise AttributeError, st)
    end.

(** [self.x = v] and [self.x.append(v)]. *)
Definition modify (f : Paginator -> Paginator) : M unit :=
  fun st => (Return tt, {| obj := f (obj st); world := world st |}).

(** [try: body / except classes: handler / else: orelse / finally: final]. *)
Definition try_except_else_finally {A B}
    (body : M A) (classes : list exn) (handler : M B)
    (orelse : A -> M B) (final : M unit) : M B :=
  fun st =>
    let '(o1, st1) := body st in
    let '(o2, st2) :=
      match o1 with
      | Return a => orelse a st1
      | Raise e => if caught_by classes e then handler st1 else (Raise e, st1)
      end in
    let '(o3, st3) := final st2 in
    match o3 with
    | Return _ => (o2, st3)
    | Raise e => (Raise e, st3)
    end.

(** [with suppress(classes): body]. *)
Definition suppress (classes : list exn) (body : M unit) : M unit :=
  fun st =>
    match body st with
    | (Return _, st') => (Return tt, st')
    | (Raise e, st') =>
        if caught_by classes e then (Return tt, st') else (Raise e, st')
    end.

Definition log_call (c : Call) (w : World) : World :=
  {| posted := posted w; calls := calls w ++ [c]; tasks := tasks w |}.

Definition with_posted (p : list (Z * list str)) (w : World) : World :=
  {| posted := p; calls := calls w; tasks := tasks w |}.

Definition with_world (w : World) (st : Store) : Store :=
  {| obj := obj st; world := w |}.

Section Platform.

Variable env : Env.

(** [await ctx.send(embed=e)]: the message is created unless the request
    fails. *)
Definition send (c : Context) (e : option Embed) : M Message :=
  fun st =>
    let n := length (calls (world st)) in
    let w := log_call (CallSend e) (world st) in
    match fault env n with
    | Some f => (Raise (exn_of f), with_world w st)
    | None =>
        (Return {| message_id := fresh_id env n |},
         with_world (with_posted (posted w ++ [(fresh_id env n, [])]) w) st)
    end.

(** [await message.add_reaction(marker)]: fails when the request fails or
    the message is gone. *)
Definition add_reaction (m : Message) (marker : str) : M unit :=
  fun st =>
    let n := length (calls (world st)) in
    let w := log_call (CallAddReaction (message_id m) marker) (world st) in
    match fault env n with
    | Some f => (Raise (exn_of f), with_world w st)
    | None =>
        match lookup_message (message_id m) (posted w) with
        | None => (Raise NotFound, with_world w st)
        | Some _ =>
            (Return tt,
             with_world
               (with_posted (attach (message_id m) marker (posted w)) w) st)
        end
    end.

(** [await message.delete()]: fails when the request fails or the message
    is gone. *)
Definition delete (m : Message) : M unit :=
  fun st =>
    let n := length (calls (world st)) in
    let w := log_call (CallDelete (message_id m)) (world st) in
    match fault env n with
    | Some f => (Raise (exn_of f), with_world w st)
    | None =>
        match lookup_message (message_id m) (posted w) with
        | None => (Raise NotFound, with_world w st)
        | Some _ =>
            (Return tt,
             with_world
               (with_posted (remove_message (message_id m) (posted w)) w) st)
        end
    end.

(** [bot.loop.create_task(coro)]: the task is scheduled, not run. *)
Definition create_task (t : Task) : M unit :=
  fun st =>
    (Return tt,
     with_world {| posted := posted (world st); calls := calls (world st);
                   tasks := tasks (world st) ++ [t] |} st).

(** The events of a wait, offered to [check] in order: the first accepted
    one is returned, an exception of [check] reaches the waiter, and when
    the events run out the timeout elapses. *)
Fixpoint first_accepted (check : Reaction -> User -> M bool)
    (events : list (Reaction * User)) : M (Reaction * User) :=
  match events with
  | [] => raise TimeoutError
  | (r, u) :: rest =>
      ok <- check r u ;;
      if ok then ret (r, u) else first_accepted check rest
  end.

(** [await bot.wait_for("reaction_add", check=check, timeout=t)]. *)
Definition wait_for (check : Reaction -> User -> M bool) (t : Q)
  : M (Reaction * User) :=
  first_accepted check (reaction_adds env).

End Platform.

(** [try: body / except classes: handler]. *)
Definition try_except {A} (body : M A) (classes : list exn) (handler : M A)
  : M A :=
  fun st =>
    match body st with
    | (Return a, st') => (Return a, st')
    | (Raise e, st') =>
        if caught_by classes e then handler st' else (Raise e, st')
    end.

(** ** Containers *)

(** What iterating over [self.reactions] yields: the elements of a list, the
    keys of a dict. *)
Definition markers (rs : Reactions) : list str :=
  match rs with
  | RDict d => List.map fst d
  | RList l => l
  end.

(** [for reaction in self.reactions]. *)
Definition iterate (rs : option Reactions) : M (list str) :=
  match rs with
  | None => raise TypeError
  | Some r => ret (markers r)
  end.

(** [x in self.reactions]. *)
Definition contains (x : str) (rs : option Reactions) : M bool :=
  match rs with
  | None => raise TypeError
  | Some r => ret (existsb (str_eqb x) (markers r))
  end.

(** [d.get(k)] on a dict. *)
Fixpoint dict_get (d : list (str * pyval)) (k : str) : pyval :=
  match d with
  | [] => PyNone
  | (k', v) :: d' => if str_eqb k' k then v else dict_get d' k
  end.

(** [self.reactions.get(k)]: only a dict has [get]. *)
Definition reactions_get (rs : option Reactions) (k : str) : M pyval :=
  match rs with
  | Some (RDict d) => ret (dict_get d k)
  | _ => raise AttributeError
  end.

(** [self.reactions.items()]: only a dict has [items]. *)
Definition reactions_items (rs : option Reactions) : M (list (str * pyval)) :=
  match rs with
  | Some (RDict d) => ret d
  | _ => raise AttributeError
  end.

(** [l.index(x)] on a list: the first position of [x]. *)
Fixpoint list_index (l : list str) (x : str) : option nat :=
  match l with
  | [] => None
  | y :: l' => if str_eqb y x then Some O else option_map S (list_index l' x)
  end.

(** [self.reactions.index(x)]: only a list has [index], and [index] raises
    [ValueError] when [x] is absent. *)
Definition reactions_index (rs : option Reactions) (x : str) : M nat :=
  match rs with
  | Some (RList l) =>
      match list_index l x with
      | Some i => ret i
      | None => raise ValueError
      end
  | _ => raise AttributeError
  end.

(** [self.reactions.append(x)]: only a list has [append]. *)
Definition reactions_append (x : str) : M unit :=
  self <- get_self ;;
  match reactions self with
  | Some (RList l) => modify (with_reactions (Some (RList (l ++ [x]))))
  | _ => raise AttributeError
  end.

(** [self.entries[i]] for [i >= 0]. *)
Definition entries_getitem (es : option (list str)) (i : nat) : M pyval :=
  match es with
  | None => raise TypeError
  | Some l =>
      match nth_error l i with
      | Some e => ret (PyStr e)
      | None => raise IndexError
      end
  end.

(** [self.description.append(line)]. *)
Definition description_append (line : str) : M unit :=
  modify (fun self => with_description (description self ++ [line]) self).

(** [self.embed.description = "\n".join(self.description)]. *)
Definition join_description : M unit :=
  e <- attr embed ;;
  self <- get_self ;;
  modify (with_embed
            (Some (set_embed_description e (join [10%N] (description self))))).

Definition PLATFORMS : list (str * pyval) :=
  [ (lit "pc", PyStr (lit "PC"));
    (lit "psn", PyStr (lit "Playstation"));
    (lit "xbl", PyStr (lit "Xbox"));
    (lit "nintendo-switch", PyStr (lit "Switch")) ].

(** The cancel marker, U+274C. *)
Definition cross_mark : str := [10060%N].

(** The combining enclosing keycap, U+20E3. *)
Definition keycap : str := [8419%N].

(** ** class BasePaginator *)

Module BasePaginator.

(** [__init__]. *)
Definition init (entries : option (list str)) (timeout : Q)
    (title image footer : option str) : Paginator :=
  {| entries := entries; timeout := timeout; title := title;
     footer := footer; image := image; reactions := None; embed := None;
     description := []; ctx := None; bot := None; author := None;
     message := None; platform := None; username := None |}.

Definition init_embed : M Embed :=
  b <- attr bot ;;
  a <- attr author ;;
  let embed := new_embed (color b (user_id a)) in
  let embed := set_author embed (user_str a) (avatar_url a) in
  self <- get_self ;;
  embed <-
    match title self with
    | Some t =>
        if truthy (Some t) then
          if (List.length t <=? 256)%nat then ret (set_title embed t)
          else description_append t ;; ret embed
        else ret embed
    | None => ret embed
    end ;;
  let embed :=
    match image self with
    | Some i => if truthy (Some i) then set_image embed i else embed
    | None => embed
    end in
  let embed :=
    match footer self with
    | Some f => if truthy (Some f) then set_footer embed f else embed
    | None => embed
    end in
  ret embed.

Definition result (reaction : Reaction) : M pyval :=
  raise NotImplementedError.

Section Methods.

Variable env : Env.

(** The [result] of the class of [self]. *)
Variable self_result : Reaction -> M pyval.

Fixpoint add_reactions_loop (pending : list str) : M unit :=
  match pending with
  | [] => ret tt
  | reaction :: rest =>
      returned <-
        try_except
          (m <- attr message ;; add_reaction env m reaction ;; ret false)
          [HTTPException; Forbidden]
          (ret true) ;;
      if (returned : bool) then ret tt else add_reactions_loop rest
  end.

Definition add_reactions : M unit :=
  self <- get_self ;;
  pending <- iterate (reactions self) ;;
  add_reactions_loop pending.

Definition cleanup : M unit :=
  suppress [HTTPException; Forbidden]
    (m <- attr message ;; delete env m).

(** The closure [check] of [paginator]; it reads [self] when called. *)
Definition check (r : Reaction) (u : User) : M bool :=
  a <- attr author ;;
  if negb (user_id u =? user_id a) then ret false else
  b <- attr bot ;;
  if user_id u =? user_id (bot_user b) then ret false else
  m <- attr message ;;
  if negb (message_id (reaction_message r) =? message_id m) then ret false
  else
  self <- get_self ;;
  inside <- contains (emoji r) (reactions self) ;;
  if negb inside then ret false else ret true.

Definition paginator : M pyval :=
  c <- attr ctx ;;
  self <- get_self ;;
  m <- send env c (embed self) ;;
  modify (with_message (Some m)) ;;
  _ <- attr bot ;;
  create_task TaskAddReactions ;;
  self <- get_self ;;
  try_except_else_finally
    (wait_for env check (timeout self))
    [TimeoutError]
    (raise NoChoice)
    (fun accepted => self_result (fst accepted))
    cleanup.

Definition start (c : Context) : M pyval :=
  if negb (add_reactions_allowed (permissions_for (ctx_channel c) (ctx_me c)))
  then raise CannotAddReactions
  else paginator.

End Methods.

End BasePaginator.

(** ** class Link(BasePaginator) *)

Module Link.

(** The dict literal of [__init__]. *)
Definition platform_markers : list (str * pyval) :=
  [ (lit "<:battlenet:679469162724196387>", PyStr (lit "pc"));
    (lit "<:psn:679468542541693128>", PyStr (lit "psn"));
    (lit "<:xbl:679469487623503930>", PyStr (lit "xbl"));
    (lit "<:nsw:752653766377078817>", PyStr (lit "nintendo-switch"));
    (cross_mark, PyNone) ].

Definition init (env : Env) : Paginator :=
  let title := gettext env (lit "Platform") in
  let footer := gettext env (lit "React with the platform you play on...") in
  with_reactions (Some (RDict platform_markers))
    (BasePaginator.init None (30 # 1) (Some title) None (Some footer)).

Definition result (reaction : Reaction) : M pyval :=
  self <- get_self ;;
  reactions_get (reactions self) (emoji reaction).

(** The loop of [start] over [self.reactions.items()]. *)
Fixpoint describe (items : list (str * pyval)) : M unit :=
  match items with
  | [] => ret tt
  | (key, value) :: rest =>
      match value with
      | PyNone => describe rest
      | PyStr v =>
          let value := dict_get PLATFORMS v in
          description_append (key ++ lit " - " ++ format value) ;;
          describe rest
      end
  end.

Definition start (env : Env) (c : Context) : M pyval :=
  modify (with_ctx (Some c)) ;;
  modify (with_bot (Some (ctx_bot c))) ;;
  modify (with_author (Some (ctx_author c))) ;;
  e <- BasePaginator.init_embed ;;
  modify (with_embed (Some e)) ;;
  self <- get_self ;;
  items <- reactions_items (reactions self) ;;
  describe items ;;
  join_description ;;
  BasePaginator.start env result c.

End Link.

(** ** class Update(Link) *)

Module Update.

Definition init (env : Env) (platform username : str) : Paginator :=
  with_username (Some username) (with_platform (Some platform) (Link.init env)).

(** Inherited from [Link]. *)
Definition result : Reaction -> M pyval := Link.result.

(** [str(value)], which [add_field] makes of [self.platform] and of
    [self.username]; they hold what [__init__] was given, [None] included. *)
Definition shown_value (value : option str) : str :=
  match value with
  | Some s => s
  | None => lit "None"
  end.

(** [super().start(ctx)] is [Link.start], since [Update] derives from
    [Link]: the display is rendered a second time there. *)
Definition start (env : Env) (c : Context) : M pyval :=
  modify (with_ctx (Some c)) ;;
  modify (with_bot (Some (ctx_bot c))) ;;
  modify (with_author (Some (ctx_author c))) ;;
  e <- BasePaginator.init_embed ;;
  modify (with_embed (Some e)) ;;
  self <- get_self ;;
  items <- reactions_items (reactions self) ;;
  Link.describe items ;;
  description_append ([10%N] ++ lit "Profile to update:") ;;
  join_description ;;
  e <- attr embed ;;
  self <- get_self ;;
  modify (with_embed
            (Some (add_field e (gettext env (lit "Platform"))
                     (shown_value (platform self))))) ;;
  e <- attr embed ;;
  self <- get_self ;;
  modify (with_embed
            (Some (add_field e (gettext env (lit "Username"))
                     (shown_value (username self))))) ;;
  Link.start env c.

End Update.

(** ** class Choose(BasePaginator) *)

Module Choose.

Definition init (entries : option (list str)) (timeout : Q)
    (title image footer : option str) : Paginator :=
  with_reactions (Some (RList []))
    (BasePaginator.init entries timeout title image footer).

Definition result (reaction : Reaction) : M pyval :=
  self <- get_self ;;
  i <- reactions_index (reactions self) (emoji reaction) ;;
  entries_getitem (entries self) i.

(** The marker of the entry numbered [index]. *)
Definition marker (index : nat) : str := str_of_nat index ++ keycap.

(** The loop of [start] over [enumerate(self.entries, start=index)]. *)
Fixpoint number (index : nat) (es : list str) : M unit :=
  match es with
  | [] => ret tt
  | entry :: rest =>
      reactions_append (marker index) ;;
      description_append (str_of_nat index ++ lit ". " ++ entry) ;;
      number (S index) rest
  end.

Definition start (env : Env) (c : Context) : M pyval :=
  modify (with_ctx (Some c)) ;;
  modify (with_bot (Some (ctx_bot c))) ;;
  modify (with_author (Some (ctx_author c))) ;;
  e <- BasePaginator.init_embed ;;
  modify (with_embed (Some e)) ;;
  self <- get_self ;;
  match entries self with
  | None => raise TypeError
  | Some es =>
      number 1 es ;;
      join_description ;;
      BasePaginator.start env result c
  end.

End Choose.

(** ** The filter, as the specification words it *)

(** The four conjuncts of the wait: the signaling user is the invoking user,
    is not the bot, the signal targets the rendered message, and its marker
    is one of the configured markers. *)
Definition accepts (a : User) (b : Bot) (m : Message) (rs : Reactions)
    (r : Reaction) (u : User) : Prop :=
  user_id u = user_id a /\
  user_id u <> user_id (bot_user b) /\
  message_id (reaction_message r) = message_id m /\
  In (emoji r) (markers rs).

(** The same, decided. *)
Definition acceptsb (a : User) (b : Bot) (m : Message) (rs : Reactions)
    (r : Reaction) (u : User) : bool :=
  (user_id u =? user_id a) &&
  negb (user_id u =? user_id (bot_user b)) &&
  (message_id (reaction_message r) =? message_id m) &&
  existsb (str_eqb (emoji r)) (markers rs).

(** [check] with the test on the bot's own identity removed. *)
Definition check_without_bot_test (r : Reaction) (u : User) : M bool :=
  a <- attr author ;;
  if negb (user_id u =? user_id a) then ret false else
  m <- attr message ;;
  if negb (message_id (reaction_message r) =? message_id m) then ret false
  else
  self <- get_self ;;
  inside <- contains (emoji r) (reactions self) ;;
  if negb inside then ret false else ret true.

(** The first event of a wait that the filter accepts. *)
Definition first_match (a : User) (b : Bot) (m : Message) (rs : Reactions)
    (events : list (Reaction * User)) : option (Reaction * User) :=
  find (fun ev => acceptsb a b m rs (fst ev) (snd ev)) events.

(** The message a session renders: the one its [send] creates. *)
Definition rendered (env : Env) (w : World) : Message :=
  {| message_id := fresh_id env (List.length (calls w)) |}.

(** The store of a session when its wait begins: the message is sent and
    remembered, the task attaching the markers is created. *)
Definition waiting (env : Env) (st : Store) : Store :=
  {| obj := with_message (Some (rendered env (world st))) (obj st);
     world :=
       {| posted := posted (world st) ++ [(message_id (rendered env (world st)), [])];
          calls := calls (world st) ++ [CallSend (embed (obj st))];
          tasks := tasks (world st) ++ [TaskAddReactions] |} |}.

(** What a session yields before its cleanup: the resolution of the accepted
    signal, [NoChoice] when the wait times out, or the exception of the
    wait. *)
Definition yield (env : Env) (self_result : Reaction -> M pyval) (st : Store)
  : Outcome pyval :=
  match fst (wait_for env BasePaginator.check (timeout (obj st)) (waiting env st))
  with
  | Return accepted => fst (self_result (fst accepted) (waiting env st))
  | Raise e => if caught_by [TimeoutError] e then Raise NoChoice else Raise e
  end.

(** ** The rendering, as the specification words it *)

(** The title a display shows: the configured one when it is non-empty and
    at most 256 characters long. *)
Definition shown_title (t : option str) : option str :=
  match t with
  | Some t =>
      if truthy (Some t) && (List.length t <=? 256)%nat then Some t else None
  | None => None
  end.

(** The title moved into the body: the configured one when it is longer than
    256 characters. *)
Definition overflow (t : option str) : list str :=
  match t with
  | Some t => if (List.length t <=? 256)%nat then [] else [t]
  | None => []
  end.

(** The body lines of a choice prompt whose first entry is numbered
    [index]. *)
Fixpoint numbered (index : nat) (es : list str) : list str :=
  match es with
  | [] => []
  | entry :: rest =>
      (str_of_nat index ++ lit ". " ++ entry) :: numbered (S index) rest
  end.

(** The markers of a choice prompt with [n] entries. *)
Definition numerals (n : nat) : list str :=
  List.map Choose.marker (seq 1 n).

(** The prompt object that the [start] of a concrete prompt hands over to
    [BasePaginator.start]: context, bot and author are recorded, the markers
    and the body lines are in place, the display is rendered. *)
Definition prepared (c : Context) (rs : Reactions) (body : list str)
    (e : Embed) (p : Paginator) : Paginator :=
  with_embed (Some e)
    (with_description body
       (with_reactions (Some rs)
          (with_author (Some (ctx_author c))
             (with_bot (Some (ctx_bot c)) (with_ctx (Some c) p))))).

(** The body lines of a link prompt: one line, marker then platform name,
    for every marker that has a value. *)
Fixpoint described (items : list (str * pyval)) : list str :=
  match items with
  | [] => []
  | (key, PyNone) :: rest => described rest
  | (key, PyStr v) :: rest =>
      (key ++ lit " - " ++ format (dict_get PLATFORMS v)) :: described rest
  end.

Definition platform_lines : list str :=
  [ lit "<:battlenet:679469162724196387> - PC";
    lit "<:psn:679468542541693128> - Playstation";
    lit "<:xbl:679469487623503930> - Xbox";
    lit "<:nsw:752653766377078817> - Switch" ].

(** The last body line of an update prompt. *)
Definition profile_line : str := [10%N] ++ lit "Profile to update:".

(** ** A small server to run the prompts on *)

Module Sample.

Definition alice : User :=
  {| user_id := 1; user_str := lit "alice#0001";
     avatar_url := lit "https://cdn.example/alice.png" |}.

Definition bob : User :=
  {| user_id := 2; user_str := lit "bob#0002";
     avatar_url := lit "https://cdn.example/bob.png" |}.

Definition overbot : User :=
  {| user_id := 99; user_str := lit "OverBot#0000";
     avatar_url := lit "https://cdn.example/overbot.png" |}.

Definition the_bot : Bot :=
  {| bot_user := overbot; color := fun _ => 16422682 |}.

(** A channel where the bot may or may not add reactions. *)
Definition channel (allowed : bool) : Channel :=
  {| permissions_for := fun _ => {| add_reactions_allowed := allowed |} |}.

Definition context (allowed : bool) : Context :=
  {| ctx_bot := the_bot; ctx_author := alice;
     ctx_channel := channel allowed; ctx_me := overbot |}.

Definition empty : World := {| posted := []; calls := []; tasks := [] |}.

(** No request fails; the message sent by request [n] is numbered
    [500 + n]; nothing is translated. *)
Definition env (events : list (Reaction * User)) : Env :=
  {| fault := fun _ => None;
     fresh_id := fun n => 500 + Z.of_nat n;
     reaction_adds := events;
     gettext := fun s => s |}.

(** As [env], but request [k] fails with [f]. *)
Definition failing (k : nat) (f : http_error)
    (events : list (Reaction * User)) : Env :=
  {| fault := fun n => if Nat.eqb n k then Some f else None;
     fresh_id := fun n => 500 + Z.of_nat n;
     reaction_adds := events;
     gettext := fun s => s |}.

Definition signal (id : Z) (marker : str) (u : User) : Reaction * User :=
  ({| reaction_message := {| message_id := id |}; emoji := marker |}, u).

(** A title of 257 characters. *)
Definition long_title : str := repeat 120%N 257.

Definition abc : list str := [lit "A"; lit "B"; lit "C"].

(** A choice prompt over [abc], just constructed. *)
Definition choose (title : option str) : Paginator :=
  Choose.init (Some abc) (30 # 1) title None None.

(** A prompt in the middle of [start]: context, bot and author are
    recorded, nothing is rendered yet. *)
Definition entered (p : Paginator) : Store :=
  {| obj := with_author (Some alice)
              (with_bot (Some the_bot) (with_ctx (Some (context true)) p));
     world := empty |}.

(** A session waiting on message [id]. *)
Definition session (id : Z) (p : Paginator) : Store :=
  {| obj := with_message (Some {| message_id := id |}) (obj (entered p));
     world := {| posted := [(id, [])]; calls := []; tasks := [] |} |}.

End Sample.

(** ** The end of a session, as the specification words it *)

(** No signal of the wait satisfies the filter of the session. *)
Definition silent (env : Env) (a : User) (b : Bot) (rs : Reactions)
    (w : World) : Prop :=
  forall r u, In (r, u) (reaction_adds env) ->
              ~ accepts a b (rendered env w) rs r u.

(** [run], from [st], ends with [o] after these requests and no other: the
    send of the display [shown], then one delete of the message that send
    created; and that message is gone if the delete goes through. *)
Definition ends_cleaned (env : Env) (run : M pyval) (st : Store)
    (shown : option Embed) (o : Outcome pyval) : Prop :=
  exists st',
    run st = (o, st') /\
    calls (world st') =
      calls (world st) ++
      [CallSend shown; CallDelete (message_id (rendered env (world st)))] /\
    (fault env (S (List.length (calls (world st)))) = None ->
     lookup_message (message_id (rendered env (world st))) (posted (world st')) = None).

(** ** Signals that the first three tests of the filter reject *)

(** The signal is not the invoking user's, or is the bot's own, or targets
    another message: [check] returns before it looks at the markers. *)
Definition early_rejected (a : User) (b : Bot) (m : Message)
    (r : Reaction) (u : User) : Prop :=
  user_id u <> user_id a \/
  user_id u = user_id (bot_user b) \/
  message_id (reaction_message r) <> message_id m.

(** ** The header of a display *)

(** An optional text as a display shows it: [None] and the empty string are
    both left out. *)
Definition shown (o : option str) : option str :=
  if truthy o then o else None.

(** The display [e] has the header that [init_embed] gives it for the
    prompt [p] of the user [a]: the colour the bot keeps for that user, the
    user's name and avatar, and the title, image and footer of [p]. *)
Definition headed (b : Bot) (a : User) (p : Paginator) (e : Embed) : Prop :=
  embed_color e = color b (user_id a) /\
  embed_author e = Some (user_str a, avatar_url a) /\
  embed_title e = shown_title (title p) /\
  embed_image e = shown (image p) /\
  embed_footer e = shown (footer p).

(** ** classes/exceptions.py *)

(** [str(z)] for an [int]. *)
Definition str_of_Z (z : Z) : str :=
  lit (NilZero.string_of_int (Z.to_int z)).

Module TooManyAccounts.

(** What constructing the exception comes to: the exception with its
    message, or the [UnboundLocalError] of reading [what] before any [case]
    has bound it. *)
Inductive constructed : Type :=
| Message (text : str)
| UnboundLocalError.

(** [__init__]. *)
Definition init (platform username : str) (players : Z) : constructed :=
  let what :=
    if str_eqb platform (lit "pc") then Some (lit "BattleTag")
    else if str_eqb platform (lit "console") then Some (lit "username")
    else None in
  match what with
  | Some what =>
      Message
        (lit "**" ++ str_of_Z players ++ lit "** accounts found named `" ++
         username ++ lit "`. Please " ++
         lit "be more specific by entering your exact **" ++ what ++
         lit "**.")
  | None => UnboundLocalError
  end.

End TooManyAccounts.

(** ** cogs/meta.py *)

Module Meta.

(** [s.split(sep)] for a separator of one character: the pieces between the
    separators, empty pieces included. *)
Fixpoint split (sep : char) (s : str) : list str :=
  match s with
  | [] => [[]]
  | ch :: rest =>
      if N.eqb ch sep then [] :: split sep rest
      else
        match split sep rest with
        | piece :: pieces => (ch :: piece) :: pieces
        | [] => [[ch]]
        end
  end.

(** [s.partition(sep)[0]]: the text before the first separator, all of the
    text when there is none. *)
Fixpoint before (sep : char) (s : str) : str :=
  match s with
  | [] => []
  | ch :: rest => if N.eqb ch sep then [] else ch :: before sep rest
  end.

(** *** help *)

(** A parameter of an application command. *)
Record Param : Type := {
  param_name : str;
  param_description : str;
  param_required : bool
}.

(** What a command tree holds under a name: a command, or a group, which
    holds its children by name in turn.  [get_command(name)] on a tree or on
    a group is the application to [name]. *)
#[local] Set Warnings "-register-all".
Inductive AppCommand : Type :=
| Command (qualified_name description : str) (parameters : list Param)
| Group (get_command : str -> option AppCommand).

(** What the handler sends: a plain text, or a display with the button that
    links to the list of commands. *)
Inductive Reply : Type :=
| Content (text : str)
| Rich (e : Embed) (button_url : str).

Inductive Failure : Type :=
| IndexError
| AssertionError.

Inductive Result : Type :=
| Sent (r : Reply)
| Failed (f : Failure).

(** The bot as [help] reads it: [bot.debug], [bot.config.website], the
    colour [bot.color(interaction.user.id)] and [bot.tree]. *)
Record Bot : Type := {
  debug : bool;
  website : str;
  user_color : Z;
  tree : str -> option AppCommand
}.

(** [f"`{p.name}`"]. *)
Definition quoted (p : Param) : str :=
  lit "`" ++ param_name p ++ lit "`".

(** The line of a parameter in the field of the parameters. *)
Definition parameter_line (p : Param) : str :=
  lit "`" ++ param_name p ++ lit "`: " ++ param_description p ++
  (if param_required p then lit " [**R**]" else lit " [**O**]").

(** The display of the command [actual]. *)
Definition command_embed (bot : Bot) (qualified_name description : str)
    (params : list Param) : Embed :=
  let signature := join (lit " ") (List.map quoted params) in
  let embed := new_embed (user_color bot) in
  let embed := set_title embed (lit "/" ++ qualified_name ++ lit " " ++ signature) in
  let embed := set_embed_description embed description in
  let parameters := List.map parameter_line params in
  match parameters with
  | [] => embed
  | _ :: _ =>
      add_field
        (set_footer embed (lit "[R] = Required / [O] = Optional"))
        (lit "Parameters") (join [10%N] parameters)
  end.

(** The display shown when no command is named. *)
Definition general_embed (bot : Bot) : Embed :=
  let help_id :=
    if debug bot then lit "1094929544055640084"
    else lit "1011734903471214622" in
  let embed := new_embed (user_color bot) in
  let embed := set_title embed (lit "OverBot Help") in
  set_embed_description embed
    (lit "Click the button below to look at all the available commands or use </help:" ++
     help_id ++ lit "> " ++
     lit "followed by a command name (e.g. **/help stats**) to get information about a command.").

(** [help], after its [defer]: what it sends, or the exception it raises. *)
Definition help (bot : Bot) (command : option str) : Result :=
  let button := website bot ++ lit "/commands" in
  match command with
  | None => Sent (Rich (general_embed bot) button)
  | Some [] => Sent (Rich (general_embed bot) button)
  | Some command =>
      match nth_error (split 32%N command) 0 with
      | None => Failed IndexError
      | Some first =>
          let actual := tree bot first in
          let actual :=
            match actual with
            | Some (Group get_command) =>
                match nth_error (split 32%N command) 1 with
                | None => inl IndexError
                | Some second => inr (get_command second)
                end
            | other => inr other
            end in
          match actual with
          | inl f => Failed f
          | inr None =>
              Sent (Content (lit "Command **" ++ command ++ lit "** not found."))
          | inr (Some (Group _)) => Failed AssertionError
          | inr (Some (Command qualified_name description params)) =>
              Sent (Rich (command_embed bot qualified_name description params)
                      button)
          end
      end
  end.

(** *** topweekly *)

(** A row of the query: a guild and the commands it ran. *)
Record Row : Type := { guild_id : Z; commands : Z }.

(** The loop of [topweekly] over [enumerate(guilds, start=index)];
    [get_guild] is [bot.get_guild], which yields the name of a guild the bot
    knows. *)
Fixpoint board (get_guild : Z -> option str) (index : nat) (guilds : list Row)
  : list str :=
  match guilds with
  | [] => []
  | guild :: rest =>
      match get_guild (guild_id guild) with
      | None => board get_guild (S index) rest
      | Some g =>
          (str_of_nat index ++ lit ". **" ++ g ++
           lit "** ran a total of **" ++ str_of_Z (commands guild) ++
           lit "** commands")
          :: board get_guild (S index) rest
      end
  end.

(** The description of the display of [topweekly]. *)
Definition topweekly_description (get_guild : Z -> option str)
    (guilds : list Row) : str :=
  join [10%N] (board get_guild 1 guilds).

(** *** format_commit and get_latest_commits *)

(** A commit as the two functions read it; [relative] is what
    [discord.utils.format_dt] makes of the time of the commit. *)
Record Commit : Type := {
  commit_message : str;
  commit_hex : str;
  relative : str
}.

Definition format_commit (commit : Commit) : str :=
  let message := before 10%N (commit_message commit) in
  let offset := relative commit in
  lit "[`" ++ firstn 6 (commit_hex commit) ++
  lit "`](https://github.com/davidetacchini/overbot/commit/" ++
  commit_hex commit ++ lit ") " ++ message ++ lit " (" ++ offset ++ lit ")".

(** [walk] is what [repo.walk] yields from the head; [islice] keeps at most
    [count] of it. *)
Definition get_latest_commits (walk : list Commit) (count : nat) : str :=
  join [10%N] (List.map format_commit (firstn count walk)).

End Meta.

(** ** bot.py *)

Module BotPy.

(** [a == b] on the values a prefix can be. *)
Definition pyval_eqb (a b : pyval) : bool :=
  match a, b with
  | PyNone, PyNone => true
  | PyStr s, PyStr t => str_eqb s t
  | _, _ => false
  end.

(** What [get_pre] returns: one prefix, or a list of them. *)
Inductive Prefixes : Type :=
| Single (prefix : str)
| Several (prefixes : list pyval).

(** [commands.when_mentioned_or(prefix)(bot, message)]: the mentions of the
    bot, which [commands.when_mentioned] yields, then the prefix. *)
Definition when_mentioned_or (mentions : list pyval) (prefix : pyval)
  : list pyval :=
  mentions ++ [prefix].

(** [Bot.get_pre]; [guild] is the id of [message.guild], if any, and
    [fetchval] what the query yields for a guild: its prefix, or [None]
    when the guild has no row. *)
Definition get_pre (default_prefix : str) (mentions : list pyval)
    (fetchval : Z -> pyval) (guild : option Z) : Prefixes :=
  match guild with
  | None => Single default_prefix
  | Some id =>
      let prefix := fetchval id in
      if negb (pyval_eqb prefix (PyStr default_prefix))
      then Several (when_mentioned_or mentions prefix)
      else Several (when_mentioned_or mentions (PyStr default_prefix))
  end.

End BotPy.

(** * Properties *)

(** ** Strings *)

Lemma str_eqb_eq (a b : str) : str_eqb a b = true <-> a = b.
Proof.
  revert b; induction a as [|x a IH]; intros [|y b]; simpl;
    try (split; (discriminate || reflexivity)).
  rewrite andb_true_iff, N.eqb_eq, IH.
  split; [intros [-> ->]; reflexivity | intros E; inversion E; auto].
Qed.

Lemma str_eqb_refl (a : str) : str_eqb a a = true.
Proof. apply str_eqb_eq; reflexivity. Qed.

Lemma existsb_str_In (x : str) (l : list str) :
  existsb (str_eqb x) l = true <-> In x l.
Proof.
  rewrite existsb_exists. split.
  - intros (y & Hy & E). apply str_eqb_eq in E. subst; assumption.
  - intros H. exists x. split; [assumption | apply str_eqb_refl].
Qed.

Lemma lit_inj (s t : string) : lit s = lit t -> s = t.
Proof.
  unfold lit. revert t.
  induction s as [|c s IH]; intros [|d t]; simpl; intros E;
    try discriminate; try reflexivity.
  inversion E as [[E1 E2]].
  apply (f_equal ascii_of_N) in E1. rewrite !ascii_N_embedding in E1.
  f_equal; auto.
Qed.

Lemma str_of_nat_inj (i j : nat) : str_of_nat i = str_of_nat j -> i = j.
Proof.
  unfold str_of_nat. intros E. apply lit_inj in E.
  apply (f_equal NilEmpty.uint_of_string) in E.
  rewrite !NilEmpty.usu in E. inversion E as [E'].
  apply (f_equal Nat.of_uint) in E'.
  rewrite !DecimalNat.Unsigned.of_to in E'. exact E'.
Qed.

Lemma marker_inj (i j : nat) : Choose.marker i = Choose.marker j -> i = j.
Proof.
  unfold Choose.marker, keycap. intros E.
  apply app_inj_tail in E. apply str_of_nat_inj. apply E.
Qed.

(** ** The filter *)

Ltac run :=
  unfold bind, ret, raise, attr, get_self, modify, contains, iterate; cbn.

Lemma acceptsb_spec a b m rs r u :
  acceptsb a b m rs r u = true <-> accepts a b m rs r u.
Proof.
  unfold acceptsb, accepts.
  rewrite !andb_true_iff, negb_true_iff, !Z.eqb_eq, Z.eqb_neq, existsb_str_In.
  tauto.
Qed.

(** [check] only reads. *)
Lemma check_reads (r : Reaction) (u : User) (st : Store) :
  snd (BasePaginator.check r u st) = st.
Proof.
  unfold BasePaginator.check; run.
  destruct (author (obj st)); cbn; [|reflexivity].
  destruct (user_id u =? user_id _); cbn; [|reflexivity].
  destruct (bot (obj st)); cbn; [|reflexivity].
  destruct (user_id u =? user_id _); cbn; [reflexivity|].
  destruct (message (obj st)); cbn; [|reflexivity].
  destruct (_ =? message_id _); cbn; [|reflexivity].
  destruct (reactions (obj st)); cbn; [|reflexivity].
  destruct (existsb _ _); reflexivity.
Qed.

(** On a session whose fields are set, [check] decides the four conjuncts. *)
Lemma check_run a b m rs r u st :
  author (obj st) = Some a -> bot (obj st) = Some b ->
  message (obj st) = Some m -> reactions (obj st) = Some rs ->
  BasePaginator.check r u st = (Return (acceptsb a b m rs r u), st).
Proof.
  intros Ha Hb Hm Hrs. unfold BasePaginator.check, acceptsb; run.
  rewrite Ha; cbn.
  destruct (user_id u =? user_id a); cbn; [|reflexivity].
  rewrite Hb; cbn.
  destruct (user_id u =? user_id (bot_user b)); cbn; [reflexivity|].
  rewrite Hm; cbn.
  destruct (_ =? message_id m); cbn; [|reflexivity].
  rewrite Hrs; cbn.
  destruct (existsb _ _); reflexivity.
Qed.

(** C1. For every reaction signal, the filter of a session accepts the
    signal if and only if the four conjuncts hold: the signaling user is the
    invoking user, is not the bot itself, the signal targets the session's
    rendered message, and its marker is in the session's marker set.
    Consequently, of two sessions with distinct rendered messages, the one
    never accepts a signal addressed to the message of the other. *)
Theorem check_accepts_iff_and_isolates
    (st st' : Store) (a a' : User) (b b' : Bot) (m m' : Message)
    (rs rs' : Reactions) (r : Reaction) (u : User) :
  author (obj st) = Some a -> bot (obj st) = Some b ->
  message (obj st) = Some m -> reactions (obj st) = Some rs ->
  author (obj st') = Some a' -> bot (obj st') = Some b' ->
  message (obj st') = Some m' -> reactions (obj st') = Some rs' ->
  message_id m <> message_id m' ->
  (fst (BasePaginator.check r u st) = Return true <-> accepts a b m rs r u) /\
  (message_id (reaction_message r) = message_id m' ->
   fst (BasePaginator.check r u st) = Return false) /\
  (message_id (reaction_message r) = message_id m ->
   fst (BasePaginator.check r u st') = Return false).
Proof.
  intros Ha Hb Hm Hrs Ha' Hb' Hm' Hrs' Hne.
  rewrite (check_run a b m rs r u st), (check_run a' b' m' rs' r u st')
    by assumption.
  cbn. split; [split | split].
  - intros E. apply acceptsb_spec. congruence.
  - intros H. apply acceptsb_spec in H. congruence.
  - intros E. f_equal. apply not_true_is_false. intros H.
    apply acceptsb_spec in H. unfold accepts in H. intuition congruence.
  - intros E. f_equal. apply not_true_is_false. intros H.
    apply acceptsb_spec in H. unfold accepts in H. intuition congruence.
Qed.

(** C10. When the invoking user is not the bot itself, the filter without
    its test on the bot's own identity is the same function as the filter:
    the signal that test would reject is already rejected by the test on the
    invoking user. *)
Theorem check_bot_test_redundant
    (st : Store) (a : User) (b : Bot) (r : Reaction) (u : User) :
  author (obj st) = Some a -> bot (obj st) = Some b ->
  user_id a <> user_id (bot_user b) ->
  check_without_bot_test r u st = BasePaginator.check r u st.
Proof.
  intros Ha Hb Hne. unfold check_without_bot_test, BasePaginator.check; run.
  rewrite Ha; cbn.
  destruct (Z.eqb_spec (user_id u) (user_id a)) as [E|E]; cbn; [|reflexivity].
  rewrite Hb; cbn.
  destruct (Z.eqb_spec (user_id u) (user_id (bot_user b))) as [E'|E']; cbn;
    [congruence | reflexivity].
Qed.

(** Witness of C1: two sessions of Alice, on messages 500 and 501; the
    signal of Alice with the cancel marker on message 500. *)
Lemma check_accepts_iff_and_isolates_witness :
  let st := Sample.session 500 (Link.init (Sample.env [])) in
  let st' := Sample.session 501 (Link.init (Sample.env [])) in
  let r := fst (Sample.signal 500 cross_mark Sample.alice) in
  (fst (BasePaginator.check r Sample.alice st) = Return true <->
   accepts Sample.alice Sample.the_bot {| message_id := 500 |}
     (RDict Link.platform_markers) r Sample.alice) /\
  (message_id (reaction_message r) = 501 ->
   fst (BasePaginator.check r Sample.alice st) = Return false) /\
  (message_id (reaction_message r) = 500 ->
   fst (BasePaginator.check r Sample.alice st') = Return false).
Proof.
  cbv zeta.
  apply (check_accepts_iff_and_isolates
           (Sample.session 500 (Link.init (Sample.env [])))
           (Sample.session 501 (Link.init (Sample.env [])))
           Sample.alice Sample.alice Sample.the_bot Sample.the_bot
           {| message_id := 500 |} {| message_id := 501 |}
           (RDict Link.platform_markers) (RDict Link.platform_markers));
    try reflexivity.
  cbn. lia.
Defined.

(** Witness of C10: Alice's session, where the bot is another user. *)
Lemma check_bot_test_redundant_witness :
  check_without_bot_test
    (fst (Sample.signal 500 cross_mark Sample.overbot)) Sample.overbot
    (Sample.session 500 (Link.init (Sample.env []))) =
  BasePaginator.check
    (fst (Sample.signal 500 cross_mark Sample.overbot)) Sample.overbot
    (Sample.session 500 (Link.init (Sample.env []))).
Proof.
  apply (check_bot_test_redundant _ Sample.alice Sample.the_bot);
    [reflexivity | reflexivity | cbn; lia].
Defined.

(** ** The wait *)

Lemma first_accepted_reads (evs : list (Reaction * User)) (st : Store) :
  snd (first_accepted BasePaginator.check evs st) = st.
Proof.
  induction evs as [|[r u] evs IH]; cbn; [reflexivity|].
  unfold bind. pose proof (check_reads r u st) as E.
  destruct (BasePaginator.check r u st) as [[[]|e] st1]; cbn in E; subst;
    auto.
Qed.

Lemma first_accepted_run a b m rs evs st :
  author (obj st) = Some a -> bot (obj st) = Some b ->
  message (obj st) = Some m -> reactions (obj st) = Some rs ->
  first_accepted BasePaginator.check evs st =
  (match first_match a b m rs evs with
   | Some ev => Return ev
   | None => Raise TimeoutError
   end, st).
Proof.
  intros Ha Hb Hm Hrs.
  induction evs as [|[r u] evs IH]; cbn; [reflexivity|].
  unfold bind. rewrite (check_run a b m rs r u st) by assumption.
  unfold first_match in *; cbn.
  destruct (acceptsb a b m rs r u); [reflexivity | exact IH].
Qed.

Lemma first_match_none a b m rs evs :
  (forall r u, In (r, u) evs -> ~ accepts a b m rs r u) ->
  first_match a b m rs evs = None.
Proof.
  intros H. unfold first_match.
  destruct (find _ evs) as [[r u]|] eqn:E; [|reflexivity].
  apply find_some in E. destruct E as [Hin Hacc]. cbn in Hacc.
  apply acceptsb_spec in Hacc. elim (H r u Hin Hacc).
Qed.

(** ** Cleanup *)

Lemma lookup_remove_message (id : Z) (l : list (Z * list str)) :
  lookup_message id (remove_message id l) = None.
Proof.
  induction l as [|[i rs] l IH]; cbn; [reflexivity|].
  destruct (Z.eqb_spec i id) as [E|E]; cbn; [exact IH|].
  destruct (Z.eqb_spec i id); [contradiction | exact IH].
Qed.

(** [cleanup] makes one delete request for the message of the session and
    returns, whatever becomes of the request. *)
Lemma cleanup_run (env : Env) (st : Store) (m : Message) :
  message (obj st) = Some m ->
  exists w,
    BasePaginator.cleanup env st = (Return tt, {| obj := obj st; world := w |}) /\
    calls w = calls (world st) ++ [CallDelete (message_id m)] /\
    tasks w = tasks (world st) /\
    (fault env (List.length (calls (world st))) = None ->
     lookup_message (message_id m) (posted w) = None).
Proof.
  intros Hm. unfold BasePaginator.cleanup, suppress, delete; run.
  rewrite Hm; cbn.
  destruct (fault env _) as [f|]; cbn.
  - destruct f; cbn; (eexists; split; [reflexivity|]); cbn;
      repeat split; discriminate.
  - destruct (lookup_message (message_id m) (posted (world st))) eqn:E; cbn.
    + eexists; split; [reflexivity|]. cbn. repeat split.
      intros _. apply lookup_remove_message.
    + eexists; split; [reflexivity|]. cbn. repeat split.
      intros _. exact E.
Qed.

(** ** The session *)

(** Once the message is sent, a session is the wait, the resolution and the
    cleanup, run on the store [waiting]. *)
Lemma paginator_enters_wait env self_result st c0 b :
  ctx (obj st) = Some c0 -> bot (obj st) = Some b ->
  fault env (List.length (calls (world st))) = None ->
  BasePaginator.paginator env self_result st =
  try_except_else_finally
    (wait_for env BasePaginator.check (timeout (obj st)))
    [TimeoutError] (raise NoChoice)
    (fun accepted => self_result (fst accepted))
    (BasePaginator.cleanup env) (waiting env st).
Proof.
  intros Hc Hb Hf. unfold BasePaginator.paginator, send, create_task; run.
  rewrite Hc; cbn. rewrite Hf; cbn. rewrite Hb; cbn. reflexivity.
Qed.

Lemma paginator_run env self_result st c0 b :
  (forall r s, snd (self_result r s) = s) ->
  ctx (obj st) = Some c0 -> bot (obj st) = Some b ->
  fault env (List.length (calls (world st))) = None ->
  exists w,
    BasePaginator.paginator env self_result st =
      (yield env self_result st, {| obj := obj (waiting env st); world := w |}) /\
    calls w =
      calls (world st) ++
      [CallSend (embed (obj st)); CallDelete (message_id (rendered env (world st)))] /\
    (fault env (S (List.length (calls (world st)))) = None ->
     lookup_message (message_id (rendered env (world st))) (posted w) = None).
Proof.
  intros Hres Hc Hb Hf.
  rewrite (paginator_enters_wait env self_result st c0 b) by assumption.
  unfold try_except_else_finally, yield, wait_for.
  pose proof (first_accepted_reads (reaction_adds env) (waiting env st)) as E1.
  destruct (first_accepted _ _ (waiting env st)) as [o1 st1]; cbn in E1; subst.
  cbn [fst].
  assert (Hstep : exists o2,
    (match o1 with
     | Return a => self_result (fst a) (waiting env st)
     | Raise e =>
         if caught_by [TimeoutError] e
         then raise NoChoice (waiting env st)
         else (Raise e, waiting env st)
     end) = (o2, waiting env st) /\
    o2 = match o1 with
         | Return a => fst (self_result (fst a) (waiting env st))
         | Raise e =>
             if caught_by [TimeoutError] e then Raise NoChoice else Raise e
         end).
  { destruct o1 as [acc|e].
    - pose proof (Hres (fst acc) (waiting env st)) as E.
      destruct (self_result (fst acc) (waiting env st)) as [o s]; cbn in *.
      subst. eexists; split; reflexivity.
    - destruct (caught_by [TimeoutError] e); eexists; split; reflexivity. }
  destruct Hstep as (o2 & -> & ->).
  destruct (cleanup_run env (waiting env st) (rendered env (world st)) eq_refl)
    as (w & -> & Hcalls & _ & Hgone).
  exists w. split; [reflexivity|]. split.
  - rewrite Hcalls. cbn. rewrite <- app_assoc. reflexivity.
  - intros Hf2. apply Hgone. cbn. rewrite length_app. cbn.
    rewrite Nat.add_1_r. exact Hf2.
Qed.

(** A session in which no signal is accepted. *)
Lemma start_times_out
    (env : Env) (self_result : Reaction -> M pyval) (c c0 : Context)
    (st : Store) (a : User) (b : Bot) (rs : Reactions) :
  add_reactions_allowed (permissions_for (ctx_channel c) (ctx_me c)) = true ->
  ctx (obj st) = Some c0 -> bot (obj st) = Some b ->
  author (obj st) = Some a -> reactions (obj st) = Some rs ->
  fault env (List.length (calls (world st))) = None ->
  silent env a b rs (world st) ->
  ends_cleaned env (BasePaginator.start env self_result c) st
    (embed (obj st)) (Raise NoChoice).
Proof.
  intros Hp Hc Hb Ha Hrs Hf Hnone. unfold ends_cleaned.
  unfold BasePaginator.start. rewrite Hp; cbn [negb].
  rewrite (paginator_enters_wait env self_result st c0 b) by assumption.
  unfold try_except_else_finally, wait_for.
  rewrite (first_accepted_run a b (rendered env (world st)) rs) by (cbn; auto).
  rewrite (first_match_none _ _ _ _ _ Hnone).
  cbn [caught_by existsb issubclass exn_eqb orb]. unfold raise.
  destruct (cleanup_run env (waiting env st) (rendered env (world st)) eq_refl)
    as (w & -> & Hcalls & _ & Hgone).
  eexists. split; [reflexivity|]. cbn [world]. split.
  - rewrite Hcalls. cbn. rewrite <- app_assoc. reflexivity.
  - intros Hf2. apply Hgone. cbn. rewrite length_app. cbn.
    rewrite Nat.add_1_r. exact Hf2.
Qed.

(** A session, whatever its wait and its resolution come to. *)
Lemma start_session
    (env : Env) (self_result : Reaction -> M pyval) (c c0 : Context)
    (st : Store) (b : Bot) :
  (forall r s, snd (self_result r s) = s) ->
  add_reactions_allowed (permissions_for (ctx_channel c) (ctx_me c)) = true ->
  ctx (obj st) = Some c0 -> bot (obj st) = Some b ->
  fault env (List.length (calls (world st))) = None ->
  ends_cleaned env (BasePaginator.start env self_result c) st
    (embed (obj st)) (yield env self_result st).
Proof.
  intros Hres Hp Hc Hb Hf. unfold ends_cleaned.
  unfold BasePaginator.start. rewrite Hp; cbn [negb].
  destruct (paginator_run env self_result st c0 b Hres Hc Hb Hf)
    as (w & -> & Hcalls & Hgone).
  eexists. split; [reflexivity|]. cbn [world]. auto.
Qed.

Lemma cleanup_returns (env : Env) (s : Store) (m : Message) :
  message (obj s) = Some m ->
  fst (BasePaginator.cleanup env s) = Return tt /\
  (lookup_message (message_id m) (posted (world s)) = None ->
   posted (world (snd (BasePaginator.cleanup env s))) = posted (world s)).
Proof.
  intros Hm. unfold BasePaginator.cleanup, suppress, delete; run.
  rewrite Hm; cbn.
  destruct (fault env (List.length (calls (world s)))) as [[]|]; cbn; auto.
  destruct (lookup_message (message_id m) (posted (world s))); cbn; auto.
  split; [reflexivity | discriminate].
Qed.

(** ** Rendering *)

Lemma with_description_same (p : Paginator) :
  with_description (description p) p = p.
Proof. destruct p; reflexivity. Qed.

Lemma store_eta (st : Store) : {| obj := obj st; world := world st |} = st.
Proof. destruct st; reflexivity. Qed.

(** [init_embed] on a session whose bot and author are set: it returns a
    display with the shown title and no body yet, and appends the overflow
    of the title to the body lines. *)
Lemma init_embed_run (st : Store) (b : Bot) (a : User) :
  bot (obj st) = Some b -> author (obj st) = Some a ->
  exists e,
    BasePaginator.init_embed st =
      (Return e,
       {| obj := with_description (description (obj st) ++ overflow (title (obj st)))
                   (obj st);
          world := world st |}) /\
    embed_title e = shown_title (title (obj st)) /\
    embed_description e = None.
Proof.
  destruct st as [p w]; cbn [obj world].
  intros Hb Ha. unfold BasePaginator.init_embed, description_append; run.
  rewrite Hb; cbn. rewrite Ha; cbn.
  unfold shown_title, overflow.
  destruct (title p) as [[|ch t]|]; cbn -[Nat.leb].
  - eexists. rewrite app_nil_r, with_description_same.
    split; [reflexivity|].
    destruct (image p) as [[|]|], (footer p) as [[|]|];
      cbn; auto.
  - destruct (Nat.leb (S (List.length t)) 256); cbn.
    + eexists. rewrite app_nil_r, with_description_same.
      split; [reflexivity|].
      destruct (image p) as [[|]|], (footer p) as [[|]|];
        cbn; auto.
    + eexists. split; [reflexivity|].
      destruct (image p) as [[|]|], (footer p) as [[|]|];
        cbn; auto.
  - eexists. rewrite app_nil_r, with_description_same.
    split; [reflexivity|].
    destruct (image p) as [[|]|], (footer p) as [[|]|];
      cbn; auto.
Qed.

Lemma shown_title_bound (o : option str) (t : str) :
  shown_title o = Some t -> (List.length t <= 256)%nat.
Proof.
  unfold shown_title. destruct o as [t'|]; [|discriminate].
  destruct (truthy (Some t')); cbn -[Nat.leb]; [|discriminate].
  destruct (Nat.leb_spec (List.length t') 256); [|discriminate].
  intros E; inversion E; subst; assumption.
Qed.

Lemma init_embed_shows (st : Store) (b : Bot) (a : User) :
  bot (obj st) = Some b -> author (obj st) = Some a ->
  exists e,
    BasePaginator.init_embed st =
      (Return e,
       {| obj := with_description
                   (description (obj st) ++ overflow (title (obj st)))
                   (obj st);
          world := world st |}) /\
    headed b a (obj st) e /\
    embed_description e = None /\ embed_fields e = [].
Proof.
  destruct st as [p w]; cbn [obj world].
  intros Hb Ha. unfold BasePaginator.init_embed, description_append; run.
  rewrite Hb; cbn. rewrite Ha; cbn.
  unfold headed, shown_title, overflow, shown.
  destruct (title p) as [[|ch t]|]; cbn -[Nat.leb].
  - eexists. rewrite app_nil_r, with_description_same.
    split; [reflexivity|].
    destruct (image p) as [[|]|], (footer p) as [[|]|]; cbn; auto 10.
  - destruct (Nat.leb (S (List.length t)) 256); cbn.
    + eexists. rewrite app_nil_r, with_description_same.
      split; [reflexivity|].
      destruct (image p) as [[|]|], (footer p) as [[|]|]; cbn; auto 10.
    + eexists. split; [reflexivity|].
      destruct (image p) as [[|]|], (footer p) as [[|]|]; cbn; auto 10.
  - eexists. rewrite app_nil_r, with_description_same.
    split; [reflexivity|].
    destruct (image p) as [[|]|], (footer p) as [[|]|]; cbn; auto 10.
Qed.

(** ** What [start] prepares *)

Lemma number_run (es : list str) :
  forall (k : nat) (st : Store) (l : list str),
    reactions (obj st) = Some (RList l) ->
    Choose.number k es st =
    (Return tt,
     {| obj :=
          with_description (description (obj st) ++ numbered k es)
            (with_reactions
               (Some (RList (l ++ List.map Choose.marker (seq k (List.length es)))))
               (obj st));
        world := world st |}).
Proof.
  induction es as [|entry rest IH]; intros k [p w] l Hl; cbn [obj world] in *.
  - cbn. rewrite !app_nil_r. unfold ret. rewrite <- Hl.
    destruct p; reflexivity.
  - cbn [Choose.number numbered List.length seq List.map].
    unfold reactions_append, description_append; run. rewrite Hl; cbn.
    rewrite (IH (S k) _ (l ++ [Choose.marker k])) by reflexivity.
    cbn. rewrite <- !app_assoc. reflexivity.
Qed.

Lemma describe_run (items : list (str * pyval)) :
  forall st : Store,
    Link.describe items st =
    (Return tt,
     {| obj := with_description (description (obj st) ++ described items) (obj st);
        world := world st |}).
Proof.
  induction items as [|[key [|v]] rest IH]; intros [p w]; cbn [obj world].
  - cbn [Link.describe described]. rewrite app_nil_r, with_description_same.
    reflexivity.
  - cbn [Link.describe described]. apply IH.
  - cbn [Link.describe described].
    unfold bind at 1, description_append, modify. cbn [obj world].
    rewrite IH. cbn [obj world description with_description].
    rewrite <- app_assoc. reflexivity.
Qed.

Lemma described_platform_markers : described Link.platform_markers = platform_lines.
Proof. vm_compute. reflexivity. Qed.

Ltac step := unfold bind at 1; cbn [modify get_self ret obj world].
Ltac fields :=
  cbv beta iota delta
      [entries timeout title footer image reactions embed description ctx bot
       author message platform username
       with_reactions with_embed with_description with_ctx with_bot
       with_author with_message with_platform with_username
       BasePaginator.init Link.init Update.init Choose.init prepared obj world].

Lemma Choose_start_prepared env c es tmo ttl img ftr w :
  exists e,
    Choose.start env c
      {| obj := Choose.init (Some es) tmo ttl img ftr; world := w |} =
    BasePaginator.start env Choose.result c
      {| obj := prepared c (RList (numerals (List.length es)))
                  (overflow ttl ++ numbered 1 es)
                  e (Choose.init (Some es) tmo ttl img ftr);
         world := w |} /\
    embed_title e = shown_title ttl /\
    embed_description e = Some (join [10%N] (overflow ttl ++ numbered 1 es)).
Proof.
  set (p0 := Choose.init (Some es) tmo ttl img ftr).
  set (st := {| obj := with_author (Some (ctx_author c))
                         (with_bot (Some (ctx_bot c)) (with_ctx (Some c) p0));
                world := w |}).
  destruct (init_embed_run st (ctx_bot c) (ctx_author c) eq_refl eq_refl)
    as (e & E & Ht & Hd).
  exists (set_embed_description e (join [10%N] (overflow ttl ++ numbered 1 es))).
  split; [|split; [exact Ht | reflexivity]].
  unfold Choose.start. do 3 step. unfold bind at 1. fold st. rewrite E.
  subst st p0. fields. do 2 step. fields.
  unfold bind at 1. erewrite number_run by reflexivity. fields.
  unfold bind at 1, join_description, attr. step. fields.
  reflexivity.
Qed.

Lemma Link_start_prepared env c w :
  exists e,
    Link.start env c {| obj := Link.init env; world := w |} =
    BasePaginator.start env Link.result c
      {| obj := prepared c (RDict Link.platform_markers)
                  (overflow (title (Link.init env)) ++ platform_lines)
                  e (Link.init env);
         world := w |} /\
    embed_title e = shown_title (title (Link.init env)) /\
    embed_description e =
      Some (join [10%N] (overflow (title (Link.init env)) ++ platform_lines)).
Proof.
  set (p0 := Link.init env).
  set (st := {| obj := with_author (Some (ctx_author c))
                         (with_bot (Some (ctx_bot c)) (with_ctx (Some c) p0));
                world := w |}).
  destruct (init_embed_run st (ctx_bot c) (ctx_author c) eq_refl eq_refl)
    as (e & E & Ht & Hd).
  exists (set_embed_description e
            (join [10%N] (overflow (title p0) ++ platform_lines))).
  split; [|split; [exact Ht | reflexivity]].
  unfold Link.start. do 3 step. unfold bind at 1. fold st. rewrite E.
  subst st p0. fields. do 2 step. fields.
  unfold reactions_items. step.
  unfold bind at 1. rewrite describe_run, described_platform_markers. fields.
  unfold bind at 1, join_description, attr. step. fields.
  reflexivity.
Qed.

(** [Choose.start] on any prompt object whose markers are a list: the
    markers and the body lines of the entries are added to those the object
    has. *)
Lemma Choose_start_appends env c p w es l :
  reactions p = Some (RList l) -> entries p = Some es ->
  exists e,
    Choose.start env c {| obj := p; world := w |} =
    BasePaginator.start env Choose.result c
      {| obj := prepared c (RList (l ++ numerals (List.length es)))
                  (description p ++ overflow (title p) ++ numbered 1 es)
                  e p;
         world := w |} /\
    embed_description e =
      Some (join [10%N]
              (description p ++ overflow (title p) ++ numbered 1 es)).
Proof.
  intros Hl He.
  destruct p as [en tm tl ft im rx em ds cx bt au ms pl us].
  cbn [reactions entries] in Hl, He. subst en rx.
  match goal with
  | |- context [Choose.start env c {| obj := ?q; world := w |}] =>
      set (p := q);
      set (st := {| obj := with_author (Some (ctx_author c))
                             (with_bot (Some (ctx_bot c))
                                (with_ctx (Some c) p));
                    world := w |})
  end.
  destruct (init_embed_run st (ctx_bot c) (ctx_author c) eq_refl eq_refl)
    as (e & E & _).
  exists (set_embed_description e
            (join [10%N] (description p ++ overflow (title p) ++ numbered 1 es))).
  split; [|reflexivity].
  unfold Choose.start. do 3 step. unfold bind at 1. fold st. rewrite E.
  subst st p. fields. do 2 step. fields.
  unfold bind at 1. erewrite number_run by reflexivity. fields.
  unfold bind at 1, join_description, attr. step. fields.
  unfold numerals. rewrite <- !app_assoc. reflexivity.
Qed.

(** ** What [start] adds to a prompt object in any state *)

Lemma prepared_prepared c rs rs' body body' e e' p :
  prepared c rs body e (prepared c rs' body' e' p) = prepared c rs body e p.
Proof. destruct p; reflexivity. Qed.

(** [Link.start] on any prompt object whose markers are a dict: the display
    is rendered anew and the lines of the markers are added to the body
    lines the object has. *)
Lemma Link_start_appends env c p w d :
  reactions p = Some (RDict d) ->
  exists e,
    Link.start env c {| obj := p; world := w |} =
    BasePaginator.start env Link.result c
      {| obj := prepared c (RDict d)
                  (description p ++ overflow (title p) ++ described d) e p;
         world := w |} /\
    headed (ctx_bot c) (ctx_author c) p e /\
    embed_description e =
      Some (join [10%N] (description p ++ overflow (title p) ++ described d)) /\
    embed_fields e = [].
Proof.
  intros Hd.
  destruct p as [en tm tl ft im rx em ds cx bt au ms pl us].
  cbn [reactions] in Hd. subst rx.
  match goal with
  | |- context [Link.start env c {| obj := ?q; world := w |}] =>
      set (p := q);
      set (st := {| obj := with_author (Some (ctx_author c))
                             (with_bot (Some (ctx_bot c))
                                (with_ctx (Some c) p));
                    world := w |})
  end.
  destruct (init_embed_shows st (ctx_bot c) (ctx_author c) eq_refl eq_refl)
    as (e & E & Hh & _ & Hfs).
  exists (set_embed_description e
            (join [10%N] (description p ++ overflow (title p) ++ described d))).
  split; [|split; [exact Hh | split; [reflexivity | exact Hfs]]].
  unfold Link.start. do 3 step. unfold bind at 1. fold st. rewrite E.
  subst st p. fields. do 2 step. fields.
  unfold reactions_items. step.
  unfold bind at 1. rewrite describe_run. fields.
  unfold bind at 1, join_description, attr. step. fields.
  rewrite <- !app_assoc. reflexivity.
Qed.

(** The part of [Update.start] that is its own: it hands over to
    [Link.start] a prompt object whose display has the two fields and whose
    body ends with the profile line. *)
Lemma Update_start_enters env c p w d :
  reactions p = Some (RDict d) ->
  exists e,
    Update.start env c {| obj := p; world := w |} =
    Link.start env c
      {| obj := prepared c (RDict d)
                  (description p ++ overflow (title p) ++ described d ++
                   [profile_line]) e p;
         world := w |} /\
    embed_fields e =
      [(gettext env (lit "Platform"), Update.shown_value (platform p));
       (gettext env (lit "Username"), Update.shown_value (username p))].
Proof.
  intros Hd.
  destruct p as [en tm tl ft im rx em ds cx bt au ms pl us].
  cbn [reactions] in Hd. subst rx.
  match goal with
  | |- context [Update.start env c {| obj := ?q; world := w |}] =>
      set (p := q);
      set (st := {| obj := with_author (Some (ctx_author c))
                             (with_bot (Some (ctx_bot c))
                                (with_ctx (Some c) p));
                    world := w |})
  end.
  destruct (init_embed_shows st (ctx_bot c) (ctx_author c) eq_refl eq_refl)
    as (e & E & _ & _ & Hfs).
  exists (add_field
            (add_field
               (set_embed_description e
                  (join [10%N]
                     (description p ++ overflow (title p) ++ described d ++
                      [profile_line])))
               (gettext env (lit "Platform")) (Update.shown_value pl))
            (gettext env (lit "Username")) (Update.shown_value us)).
  split.
  - unfold Update.start. do 3 step. unfold bind at 1. fold st. rewrite E.
    subst st p. fields. do 2 step. fields.
    unfold reactions_items. step.
    unfold bind at 1. rewrite describe_run. fields.
    unfold bind at 1, description_append. step. fields.
    unfold bind at 1, join_description, attr. step. fields.
    do 3 step. fields. do 3 step. fields.
    rewrite <- !app_assoc. reflexivity.
  - cbn [embed_fields add_field set_embed_description]. rewrite Hfs.
    reflexivity.
Qed.

(** All of [Update.start]: [Link.start] renders the display once more, so
    the display that is sent has no field, and the lines of the markers are
    in the body twice. *)
Lemma Update_start_appends env c p w d :
  reactions p = Some (RDict d) ->
  exists e,
    Update.start env c {| obj := p; world := w |} =
    BasePaginator.start env Update.result c
      {| obj := prepared c (RDict d)
                  (description p ++ overflow (title p) ++ described d ++
                   [profile_line] ++ overflow (title p) ++ described d) e p;
         world := w |} /\
    headed (ctx_bot c) (ctx_author c) p e /\
    embed_description e =
      Some (join [10%N]
              (description p ++ overflow (title p) ++ described d ++
               [profile_line] ++ overflow (title p) ++ described d)) /\
    embed_fields e = [].
Proof.
  intros Hd.
  destruct (Update_start_enters env c p w d Hd) as (e1 & E1 & _).
  match type of E1 with
  | _ = Link.start env c {| obj := ?q; world := w |} =>
      destruct (Link_start_appends env c q w d) as (e & E & Hh & Hb & Hfs);
        [destruct p; reflexivity|]
  end.
  exists e. rewrite E1, E, prepared_prepared.
  replace (description (prepared c (RDict d)
             (description p ++ overflow (title p) ++ described d ++
              [profile_line]) e1 p))
    with (description p ++ overflow (title p) ++ described d ++ [profile_line])
    in * by (destruct p; reflexivity).
  replace (title (prepared c (RDict d)
             (description p ++ overflow (title p) ++ described d ++
              [profile_line]) e1 p))
    with (title p) in * by (destruct p; reflexivity).
  rewrite <- !app_assoc in *. cbn [app] in *.
  split; [reflexivity|]. split; [|split; [exact Hb | exact Hfs]].
  destruct p; exact Hh.
Qed.

(** Without entries [Choose.start] fails at its loop, whatever the prompt
    object: the world is as it was. *)
Lemma Choose_start_without_entries env c p w :
  entries p = None ->
  exists p',
    Choose.start env c {| obj := p; world := w |} =
    (Raise TypeError, {| obj := p'; world := w |}).
Proof.
  intros He.
  destruct p as [en tm tl ft im rx em ds cx bt au ms pl us].
  cbn [entries] in He. subst en.
  match goal with
  | |- context [Choose.start env c {| obj := ?q; world := w |}] =>
      set (p := q);
      set (st := {| obj := with_author (Some (ctx_author c))
                             (with_bot (Some (ctx_bot c))
                                (with_ctx (Some c) p));
                    world := w |})
  end.
  destruct (init_embed_run st (ctx_bot c) (ctx_author c) eq_refl eq_refl)
    as (e & E & _).
  eexists.
  unfold Choose.start. do 3 step. unfold bind at 1. fold st. rewrite E.
  subst st p. fields. do 2 step. fields. reflexivity.
Qed.

(** ** What [start] prepares, continued *)

Lemma Update_start_prepared env c w pf un :
  exists e,
    Update.start env c {| obj := Update.init env pf un; world := w |} =
    BasePaginator.start env Update.result c
      {| obj := prepared c (RDict Link.platform_markers)
                  (overflow (title (Link.init env)) ++ platform_lines ++
                   [profile_line] ++
                   overflow (title (Link.init env)) ++ platform_lines)
                  e (Update.init env pf un);
         world := w |} /\
    headed (ctx_bot c) (ctx_author c) (Link.init env) e /\
    embed_description e =
      Some (join [10%N]
              (overflow (title (Link.init env)) ++ platform_lines ++
               [profile_line] ++
               overflow (title (Link.init env)) ++ platform_lines)) /\
    embed_fields e = [].
Proof.
  destruct (Update_start_appends env c (Update.init env pf un) w
              Link.platform_markers eq_refl) as (e & E & Hh & Hd & Hfs).
  rewrite described_platform_markers in E, Hd.
  exists e. split; [exact E|]. split; [exact Hh|]. split; [exact Hd | exact Hfs].
Qed.

(** ** Resolution *)

Lemma Link_result_run (st : Store) (d : list (str * pyval)) (r : Reaction) :
  reactions (obj st) = Some (RDict d) ->
  Link.result r st = (Return (dict_get d (emoji r)), st).
Proof.
  intros H. unfold Link.result, reactions_get; run. rewrite H. reflexivity.
Qed.

Lemma Link_result_reads (r : Reaction) (s : Store) : snd (Link.result r s) = s.
Proof.
  unfold Link.result, reactions_get; run.
  destruct (reactions (obj s)) as [[d|l]|]; reflexivity.
Qed.

Lemma Choose_result_reads (r : Reaction) (s : Store) :
  snd (Choose.result r s) = s.
Proof.
  unfold Choose.result, reactions_index, entries_getitem; run.
  destruct (reactions (obj s)) as [[d|l]|]; cbn; try reflexivity.
  destruct (list_index l (emoji r)); cbn; [|reflexivity].
  destruct (entries (obj s)) as [es|]; cbn; [|reflexivity].
  destruct (nth_error es n); reflexivity.
Qed.

Lemma list_index_numerals (n k i : nat) :
  (i < n)%nat ->
  list_index (List.map Choose.marker (seq k n)) (Choose.marker (k + i)) = Some i.
Proof.
  revert k i. induction n as [|n IH]; intros k i Hi; [lia|].
  cbn [seq List.map list_index].
  destruct i as [|i].
  - rewrite Nat.add_0_r, str_eqb_refl. reflexivity.
  - destruct (str_eqb (Choose.marker k) (Choose.marker (k + S i))) eqn:E.
    + apply str_eqb_eq, marker_inj in E. lia.
    + replace (k + S i)%nat with (S k + i)%nat by lia.
      rewrite IH by lia. reflexivity.
Qed.

Lemma nth_error_numerals (n i : nat) :
  (i < n)%nat -> nth_error (numerals n) i = Some (Choose.marker (S i)).
Proof.
  intros Hi. unfold numerals.
  rewrite nth_error_map, nth_error_seq.
  destruct (Nat.ltb_spec i n); [reflexivity | lia].
Qed.

Lemma In_numerals (n j : nat) :
  In (Choose.marker j) (numerals n) <-> (1 <= j <= n)%nat.
Proof.
  unfold numerals. rewrite in_map_iff. split.
  - intros (i & E & Hi). apply marker_inj in E. apply in_seq in Hi. lia.
  - intros Hj. exists j. split; [reflexivity | apply in_seq; lia].
Qed.

Lemma In_numerals_inv (n : nat) (x : str) :
  In x (numerals n) -> exists i, (i < n)%nat /\ x = Choose.marker (S i).
Proof.
  unfold numerals. rewrite in_map_iff. intros (j & E & Hj).
  apply in_seq in Hj. exists (pred j). split; [lia|].
  rewrite <- E. f_equal. lia.
Qed.

(** On a choice prompt, the marker numbered [i + 1] resolves to the entry
    at position [i]. *)
Lemma Choose_result_run (st : Store) (es : list str) (i : nat) (e : str)
    (r : Reaction) :
  reactions (obj st) = Some (RList (numerals (List.length es))) ->
  entries (obj st) = Some es ->
  nth_error es i = Some e ->
  emoji r = Choose.marker (S i) ->
  Choose.result r st = (Return (PyStr e), st).
Proof.
  intros Hr He Hi Hm.
  assert (i < List.length es)%nat as Hlt
      by (apply nth_error_Some; congruence).
  pose proof (list_index_numerals (List.length es) 1 i Hlt) as Hidx.
  change (1 + i)%nat with (S i) in Hidx. fold (numerals (List.length es)) in Hidx.
  unfold Choose.result, reactions_index, entries_getitem.
  unfold bind, get_self. cbn [fst snd]. rewrite Hr, Hm, Hidx.
  unfold ret. rewrite He, Hi. reflexivity.
Qed.

(** What [start] yields on a session whose fields are set: the resolution of
    the first signal the filter accepts, or [NoChoice]. *)
Lemma start_run env self_result c st c0 a b rs :
  (forall r s, snd (self_result r s) = s) ->
  add_reactions_allowed (permissions_for (ctx_channel c) (ctx_me c)) = true ->
  ctx (obj st) = Some c0 -> bot (obj st) = Some b ->
  author (obj st) = Some a -> reactions (obj st) = Some rs ->
  fault env (List.length (calls (world st))) = None ->
  fst (BasePaginator.start env self_result c st) =
  match first_match a b (rendered env (world st)) rs (reaction_adds env) with
  | Some ev => fst (self_result (fst ev) (waiting env st))
  | None => Raise NoChoice
  end.
Proof.
  intros Hres Hp Hc Hb Ha Hrs Hf.
  unfold BasePaginator.start. rewrite Hp; cbn [negb].
  destruct (paginator_run env self_result st c0 b Hres Hc Hb Hf)
    as (w & -> & _). cbn [fst].
  unfold yield, wait_for.
  rewrite (first_accepted_run a b (rendered env (world st)) rs) by (cbn; auto).
  cbn [fst]. destruct (first_match _ _ _ _ _); reflexivity.
Qed.

(** The same two facts on the object that a concrete [start] prepares. *)
Lemma prepared_times_out env c self_result w rs body e p :
  add_reactions_allowed (permissions_for (ctx_channel c) (ctx_me c)) = true ->
  fault env (List.length (calls w)) = None ->
  silent env (ctx_author c) (ctx_bot c) rs w ->
  exists st',
    BasePaginator.start env self_result c
      {| obj := prepared c rs body e p; world := w |} = (Raise NoChoice, st') /\
    calls (world st') =
      calls w ++ [CallSend (Some e); CallDelete (message_id (rendered env w))] /\
    (fault env (S (List.length (calls w))) = None ->
     lookup_message (message_id (rendered env w)) (posted (world st')) = None).
Proof.
  intros Hp Hf Hs.
  exact (start_times_out env self_result c c
           {| obj := prepared c rs body e p; world := w |}
           (ctx_author c) (ctx_bot c) rs
           Hp eq_refl eq_refl eq_refl eq_refl Hf Hs).
Qed.

Lemma prepared_session env c self_result w rs body e p :
  (forall r s, snd (self_result r s) = s) ->
  add_reactions_allowed (permissions_for (ctx_channel c) (ctx_me c)) = true ->
  fault env (List.length (calls w)) = None ->
  exists st',
    BasePaginator.start env self_result c
      {| obj := prepared c rs body e p; world := w |} =
    (yield env self_result {| obj := prepared c rs body e p; world := w |}, st') /\
    calls (world st') =
      calls w ++ [CallSend (Some e); CallDelete (message_id (rendered env w))] /\
    (fault env (S (List.length (calls w))) = None ->
     lookup_message (message_id (rendered env w)) (posted (world st')) = None).
Proof.
  intros Hres Hp Hf.
  exact (start_session env self_result c c
           {| obj := prepared c rs body e p; world := w |} (ctx_bot c)
           Hres Hp eq_refl eq_refl Hf).
Qed.

(** ** The claims on the session *)

(** C2. When no signal satisfying the filter arrives before the timeout,
    [start] raises [NoChoice], and by then the session has made exactly one
    delete request, for the message it rendered: the requests of the session
    are the send and then that delete, and the message is gone once the
    delete goes through.  This holds of [BasePaginator.start] on any session
    whose fields are set, and so of the [start] of a link, update or choice
    prompt just constructed. *)
Theorem timeout_raises_NoChoice
    (env : Env) (self_result : Reaction -> M pyval) (c c0 : Context)
    (st : Store) (a : User) (b : Bot) (rs : Reactions) :
  add_reactions_allowed (permissions_for (ctx_channel c) (ctx_me c)) = true ->
  (ctx (obj st) = Some c0 -> bot (obj st) = Some b ->
   author (obj st) = Some a -> reactions (obj st) = Some rs ->
   fault env (List.length (calls (world st))) = None ->
   silent env a b rs (world st) ->
   ends_cleaned env (BasePaginator.start env self_result c) st
     (embed (obj st)) (Raise NoChoice)) /\
  (forall w,
     let st0 := {| obj := Link.init env; world := w |} in
     fault env (List.length (calls w)) = None ->
     silent env (ctx_author c) (ctx_bot c) (RDict Link.platform_markers) w ->
     exists e,
       ends_cleaned env (Link.start env c) st0 (Some e) (Raise NoChoice)) /\
  (forall w pf un,
     let st0 := {| obj := Update.init env pf un; world := w |} in
     fault env (List.length (calls w)) = None ->
     silent env (ctx_author c) (ctx_bot c) (RDict Link.platform_markers) w ->
     exists e,
       ends_cleaned env (Update.start env c) st0 (Some e) (Raise NoChoice)) /\
  (forall w es tmo ttl img ftr,
     let st0 := {| obj := Choose.init (Some es) tmo ttl img ftr; world := w |} in
     fault env (List.length (calls w)) = None ->
     silent env (ctx_author c) (ctx_bot c)
       (RList (numerals (List.length es))) w ->
     exists e,
       ends_cleaned env (Choose.start env c) st0 (Some e) (Raise NoChoice)).
Proof.
  intros Hp. split; [|split; [|split]].
  - intros. eapply start_times_out; eauto.
  - intros w st0 Hf Hs. subst st0.
    destruct (Link_start_prepared env c w) as (e & E & _).
    exists e. unfold ends_cleaned. cbn [world]. rewrite E.
    apply prepared_times_out; assumption.
  - intros w pf un st0 Hf Hs. subst st0.
    destruct (Update_start_prepared env c w pf un) as (e & E & _).
    exists e. unfold ends_cleaned. cbn [world]. rewrite E.
    apply prepared_times_out; assumption.
  - intros w es tmo ttl img ftr st0 Hf Hs. subst st0.
    destruct (Choose_start_prepared env c es tmo ttl img ftr w) as (e & E & _).
    exists e. unfold ends_cleaned. cbn [world]. rewrite E.
    apply prepared_times_out; assumption.
Qed.

(** C3. On every exit of a session after its message is rendered, whether
    a signal is resolved to a value or to the cancel value, the wait times
    out, or the resolution raises, the session has made its delete request
    for the rendered message before [start] returns or raises, and what
    [start] returns or raises is what the wait and the resolution yield:
    the fate of the delete request is not visible.  This holds of
    [BasePaginator.start] with any [result] that only reads, and so of the
    [start] of a link, update or choice prompt just constructed.  [cleanup]
    itself returns normally whenever the session has a message, also when
    that message no longer exists or the request fails. *)
Theorem cleanup_on_every_exit
    (env : Env) (self_result : Reaction -> M pyval) (c c0 : Context)
    (st : Store) (b : Bot) :
  add_reactions_allowed (permissions_for (ctx_channel c) (ctx_me c)) = true ->
  ((forall r s, snd (self_result r s) = s) ->
   ctx (obj st) = Some c0 -> bot (obj st) = Some b ->
   fault env (List.length (calls (world st))) = None ->
   ends_cleaned env (BasePaginator.start env self_result c) st
     (embed (obj st)) (yield env self_result st)) /\
  (forall w,
     fault env (List.length (calls w)) = None ->
     exists e o,
       ends_cleaned env (Link.start env c)
         {| obj := Link.init env; world := w |} (Some e) o) /\
  (forall w pf un,
     fault env (List.length (calls w)) = None ->
     exists e o,
       ends_cleaned env (Update.start env c)
         {| obj := Update.init env pf un; world := w |} (Some e) o) /\
  (forall w es tmo ttl img ftr,
     fault env (List.length (calls w)) = None ->
     exists e o,
       ends_cleaned env (Choose.start env c)
         {| obj := Choose.init (Some es) tmo ttl img ftr; world := w |}
         (Some e) o) /\
  (forall (s : Store) (m : Message),
     message (obj s) = Some m ->
     fst (BasePaginator.cleanup env s) = Return tt /\
     (lookup_message (message_id m) (posted (world s)) = None ->
      posted (world (snd (BasePaginator.cleanup env s))) = posted (world s))).
Proof.
  intros Hp. split; [|split; [|split; [|split]]].
  - intros. eapply start_session; eauto.
  - intros w Hf.
    destruct (Link_start_prepared env c w) as (e & E & _).
    exists e. eexists. unfold ends_cleaned. cbn [world]. rewrite E.
    apply prepared_session; [exact Link_result_reads | assumption..].
  - intros w pf un Hf.
    destruct (Update_start_prepared env c w pf un) as (e & E & _).
    exists e. eexists. unfold ends_cleaned. cbn [world]. rewrite E.
    apply prepared_session; [exact Link_result_reads | assumption..].
  - intros w es tmo ttl img ftr Hf.
    destruct (Choose_start_prepared env c es tmo ttl img ftr w) as (e & E & _).
    exists e. eexists. unfold ends_cleaned. cbn [world]. rewrite E.
    apply prepared_session; [exact Choose_result_reads | assumption..].
  - intros s m. apply cleanup_returns.
Qed.

(** Witness of C2: a link prompt of Alice; the only signal comes from Bob. *)
Lemma timeout_raises_NoChoice_witness :
  exists e,
    ends_cleaned (Sample.env [Sample.signal 500 cross_mark Sample.bob])
      (Link.start (Sample.env [Sample.signal 500 cross_mark Sample.bob])
         (Sample.context true))
      {| obj := Link.init (Sample.env [Sample.signal 500 cross_mark Sample.bob]);
         world := Sample.empty |}
      (Some e) (Raise NoChoice).
Proof.
  destruct (timeout_raises_NoChoice
              (Sample.env [Sample.signal 500 cross_mark Sample.bob])
              Link.result (Sample.context true) (Sample.context true)
              (Sample.entered (Link.init (Sample.env [])))
              Sample.alice Sample.the_bot (RDict Link.platform_markers)
              eq_refl)
    as (_ & Hlink & _).
  apply (Hlink Sample.empty eq_refl).
  intros r u [E|[]]. inversion E; subst. unfold accepts. cbn. lia.
Defined.

(** Witness of C3: a link prompt of Alice, who selects the cancel marker. *)
Lemma cleanup_on_every_exit_witness :
  ends_cleaned (Sample.env [Sample.signal 500 cross_mark Sample.alice])
    (BasePaginator.start
       (Sample.env [Sample.signal 500 cross_mark Sample.alice]) Link.result
       (Sample.context true))
    (Sample.entered (Link.init (Sample.env [])))
    None (Return PyNone).
Proof.
  destruct (cleanup_on_every_exit
              (Sample.env [Sample.signal 500 cross_mark Sample.alice])
              Link.result (Sample.context true) (Sample.context true)
              (Sample.entered (Link.init (Sample.env []))) Sample.the_bot
              eq_refl)
    as (H & _).
  exact (H Link_result_reads eq_refl eq_refl eq_refl).
Defined.

(** ** The claims on [start] and on rendering *)

Lemma start_denied env self_result c st :
  add_reactions_allowed (permissions_for (ctx_channel c) (ctx_me c)) = false ->
  BasePaginator.start env self_result c st = (Raise CannotAddReactions, st).
Proof. intros H. unfold BasePaginator.start. rewrite H. reflexivity. Qed.

(** C4, as the claim states it, fails on the link prompt: where the bot may
    not add reactions, [start] raises [CannotAddReactions] and sends
    nothing, but the display has been rendered by then. *)
Lemma start_renders_before_permission_check :
  let st := {| obj := Link.init (Sample.env []); world := Sample.empty |} in
  let res := Link.start (Sample.env []) (Sample.context false) st in
  ~ (fst res = Raise CannotAddReactions /\
     calls (world (snd res)) = calls (world st) /\
     embed (obj (snd res)) = None /\
     description (obj (snd res)) = []).
Proof.
  vm_compute. intros (_ & _ & H & _). discriminate H.
Qed.

(** C4, amended. Where the channel does not let the bot add reactions,
    [BasePaginator.start] raises [CannotAddReactions] before anything else
    happens, so no [start] makes a request to the platform: nothing is
    sent.  The [start] of a link or update prompt, whose markers are a dict,
    and of a choice prompt whose entries are supplied and whose markers are
    a list, raises [CannotAddReactions] in whatever state the prompt object
    is, but only after it has recorded the context, rendered the display and
    added its body lines to those of the prompt object; the update prompt
    has rendered twice by then.  A choice prompt without entries raises
    [TypeError] instead, before it reaches the check, and sends nothing
    either. *)
Theorem start_without_permission (env : Env) (c : Context) :
  add_reactions_allowed (permissions_for (ctx_channel c) (ctx_me c)) = false ->
  (forall self_result st,
     BasePaginator.start env self_result c st = (Raise CannotAddReactions, st)) /\
  (forall p w d, reactions p = Some (RDict d) ->
     exists e,
       Link.start env c {| obj := p; world := w |} =
       (Raise CannotAddReactions,
        {| obj := prepared c (RDict d)
                    (description p ++ overflow (title p) ++ described d) e p;
           world := w |})) /\
  (forall p w d, reactions p = Some (RDict d) ->
     exists e,
       Update.start env c {| obj := p; world := w |} =
       (Raise CannotAddReactions,
        {| obj := prepared c (RDict d)
                    (description p ++ overflow (title p) ++ described d ++
                     [profile_line] ++ overflow (title p) ++ described d)
                    e p;
           world := w |})) /\
  (forall p w es l, reactions p = Some (RList l) -> entries p = Some es ->
     exists e,
       Choose.start env c {| obj := p; world := w |} =
       (Raise CannotAddReactions,
        {| obj := prepared c (RList (l ++ numerals (List.length es)))
                    (description p ++ overflow (title p) ++ numbered 1 es) e p;
           world := w |})) /\
  (forall p w, entries p = None ->
     exists p',
       Choose.start env c {| obj := p; world := w |} =
       (Raise TypeError, {| obj := p'; world := w |})) /\
  described Link.platform_markers = platform_lines.
Proof.
  intros H. split; [|split; [|split; [|split; [|split]]]].
  - intros res st. apply start_denied, H.
  - intros p w d Hd.
    destruct (Link_start_appends env c p w d Hd) as (e & E & _).
    exists e. rewrite E. apply start_denied, H.
  - intros p w d Hd.
    destruct (Update_start_appends env c p w d Hd) as (e & E & _).
    exists e. rewrite E. apply start_denied, H.
  - intros p w es l Hl He.
    destruct (Choose_start_appends env c p w es l Hl He) as (e & E & _).
    exists e. rewrite E. apply start_denied, H.
  - intros p w He. apply Choose_start_without_entries, He.
  - apply described_platform_markers.
Qed.

(** Witness of C4: a link prompt just constructed, started where the bot may
    not react. *)
Lemma start_without_permission_witness :
  exists e,
    Link.start (Sample.env []) (Sample.context false)
      {| obj := Link.init (Sample.env []); world := Sample.empty |} =
    (Raise CannotAddReactions,
     {| obj := prepared (Sample.context false) (RDict Link.platform_markers)
                 (overflow (title (Link.init (Sample.env []))) ++ platform_lines)
                 e (Link.init (Sample.env []));
        world := Sample.empty |}).
Proof.
  destruct (start_without_permission (Sample.env []) (Sample.context false)
              eq_refl) as (_ & H & _).
  exact (H (Link.init (Sample.env [])) Sample.empty Link.platform_markers
           eq_refl).
Defined.

(** C5. [init_embed] never produces a display whose title is longer than
    256 characters: a non-empty title of at most 256 characters becomes the
    title of the display and the body lines stay as they are; a longer title
    is left out of the display and becomes a body line instead, which on a
    prompt just constructed is the first one, ahead of the lines that
    [start] adds: the display of a choice prompt with such a title has no
    title, and its body is the title followed by the numbered entries. *)
Theorem init_embed_title_bound (st : Store) (b : Bot) (a : User) :
  bot (obj st) = Some b -> author (obj st) = Some a ->
  (exists e st',
     BasePaginator.init_embed st = (Return e, st') /\
     world st' = world st /\
     (forall t, embed_title e = Some t -> (List.length t <= 256)%nat) /\
     (forall t, title (obj st) = Some t -> t <> [] ->
                (List.length t <= 256)%nat ->
                embed_title e = Some t /\
                description (obj st') = description (obj st)) /\
     (forall t, title (obj st) = Some t -> (256 < List.length t)%nat ->
                embed_title e = None /\
                description (obj st') = description (obj st) ++ [t])) /\
  (forall env c es tmo t img ftr w,
     (256 < List.length t)%nat ->
     exists e,
       Choose.start env c
         {| obj := Choose.init (Some es) tmo (Some t) img ftr; world := w |} =
       BasePaginator.start env Choose.result c
         {| obj := prepared c (RList (numerals (List.length es)))
                     (t :: numbered 1 es) e
                     (Choose.init (Some es) tmo (Some t) img ftr);
            world := w |} /\
       embed_title e = None /\
       embed_description e = Some (join [10%N] (t :: numbered 1 es))).
Proof.
  intros Hb Ha. split.
  - destruct (init_embed_run st b a Hb Ha) as (e & E & Ht & _).
    eexists; eexists. split; [exact E|]. cbn [world obj description with_description].
    split; [reflexivity|]. split; [|split].
    + intros t Et. rewrite Ht in Et. eapply shown_title_bound, Et.
    + intros t Et Hne Hlen. rewrite Ht. unfold shown_title, overflow.
      rewrite Et. destruct t as [|ch t]; [congruence|].
      apply Nat.leb_le in Hlen. cbn [truthy andb]. rewrite Hlen.
      rewrite app_nil_r. auto.
    + intros t Et Hlen. rewrite Ht. unfold shown_title, overflow.
      rewrite Et. apply Nat.leb_gt in Hlen. rewrite Hlen, andb_false_r. auto.
  - intros env c es tmo t img ftr w Hlen.
    destruct (Choose_start_prepared env c es tmo (Some t) img ftr w)
      as (e & E & Ht & Hd).
    assert (Hov : overflow (Some t) = [t]).
    { unfold overflow. apply Nat.leb_gt in Hlen. rewrite Hlen. reflexivity. }
    assert (Hsh : shown_title (Some t) = None).
    { unfold shown_title.
      apply Nat.leb_gt in Hlen. rewrite Hlen, andb_false_r. reflexivity. }
    rewrite Hov in E, Hd. rewrite Hsh in Ht.
    exists e. auto.
Qed.

(** Witness of C5: a choice prompt whose title has 257 characters. *)
Lemma init_embed_title_bound_witness :
  exists e st',
    BasePaginator.init_embed
      (Sample.entered (Sample.choose (Some Sample.long_title))) =
      (Return e, st') /\
    embed_title e = None /\
    description (obj st') = [Sample.long_title].
Proof.
  destruct (init_embed_title_bound
              (Sample.entered (Sample.choose (Some Sample.long_title)))
              Sample.the_bot Sample.alice eq_refl eq_refl)
    as [(e & st' & E & _ & _ & _ & Hlong) _].
  exists e, st'. split; [exact E|].
  apply (Hlong Sample.long_title eq_refl).
  vm_compute. reflexivity.
Defined.

(** C6, as the claim states it, fails: on a prompt whose title has 257
    characters, [init_embed] changes the accumulated body lines. *)
Lemma init_embed_changes_description :
  let st := Sample.entered (Sample.choose (Some Sample.long_title)) in
  ~ (snd (BasePaginator.init_embed st) = st) /\
  description (obj (snd (BasePaginator.init_embed st))) <> description (obj st).
Proof.
  cbv zeta.
  assert (H : description
                (obj (snd (BasePaginator.init_embed
                             (Sample.entered
                                (Sample.choose (Some Sample.long_title)))))) <>
              description
                (obj (Sample.entered (Sample.choose (Some Sample.long_title))))).
  { vm_compute. discriminate. }
  split; [|exact H]. intros E. apply H. rewrite E. reflexivity.
Qed.

(** C6, amended. [init_embed] makes no request to the platform and leaves
    the platform as it is.  It leaves the prompt object unchanged when the
    title is absent, empty or at most 256 characters long; when the title is
    longer, it appends the title to the accumulated body lines and changes
    nothing else. *)
Theorem init_embed_frame (st : Store) :
  world (snd (BasePaginator.init_embed st)) = world st /\
  (forall t, title (obj st) = Some t -> (List.length t <= 256)%nat ->
             snd (BasePaginator.init_embed st) = st) /\
  (title (obj st) = None -> snd (BasePaginator.init_embed st) = st) /\
  (forall t b a, title (obj st) = Some t -> (256 < List.length t)%nat ->
                 bot (obj st) = Some b -> author (obj st) = Some a ->
                 obj (snd (BasePaginator.init_embed st)) =
                 with_description (description (obj st) ++ [t]) (obj st)).
Proof.
  assert (Hnone : bot (obj st) = None \/ author (obj st) = None ->
                  snd (BasePaginator.init_embed st) = st).
  { unfold BasePaginator.init_embed; run.
    destruct (bot (obj st)); cbn; [|reflexivity].
    destruct (author (obj st)); cbn; [|reflexivity].
    intros [H|H]; discriminate H. }
  assert (Hsome : forall b a, bot (obj st) = Some b -> author (obj st) = Some a ->
            snd (BasePaginator.init_embed st) =
            {| obj := with_description (description (obj st) ++ overflow (title (obj st)))
                        (obj st);
               world := world st |}).
  { intros b a Hb Ha. destruct (init_embed_run st b a Hb Ha) as (e & E & _).
    rewrite E. reflexivity. }
  assert (Hshort : overflow (title (obj st)) = [] ->
                   snd (BasePaginator.init_embed st) = st).
  { intros Hov.
    destruct (bot (obj st)) as [b|] eqn:Hb; [|auto].
    destruct (author (obj st)) as [a|] eqn:Ha; [|auto].
    rewrite (Hsome b a eq_refl eq_refl), Hov, app_nil_r, with_description_same.
    apply store_eta. }
  split; [|split; [|split]].
  - destruct (bot (obj st)) as [b|] eqn:Hb; [|rewrite Hnone; auto].
    destruct (author (obj st)) as [a|] eqn:Ha; [|rewrite Hnone; auto].
    rewrite (Hsome b a eq_refl eq_refl). reflexivity.
  - intros t Et Hlen. apply Hshort. unfold overflow. rewrite Et.
    apply Nat.leb_le in Hlen. rewrite Hlen. reflexivity.
  - intros Et. apply Hshort. unfold overflow. rewrite Et. reflexivity.
  - intros t b a Et Hlen Hb Ha. rewrite (Hsome b a Hb Ha). cbn [obj].
    unfold overflow. rewrite Et. apply Nat.leb_gt in Hlen. rewrite Hlen.
    reflexivity.
Qed.

(** Witness of C6: the link prompt, whose title has 8 characters. *)
Lemma init_embed_frame_witness :
  snd (BasePaginator.init_embed (Sample.entered (Link.init (Sample.env [])))) =
  Sample.entered (Link.init (Sample.env [])).
Proof.
  destruct (init_embed_frame (Sample.entered (Link.init (Sample.env []))))
    as (_ & H & _).
  apply (H (lit "Platform")); [reflexivity|].
  apply Nat.leb_le. vm_compute. reflexivity.
Defined.

(** ** The claims on resolution *)

(** C7. On the link prompt, and on the update prompt, which has the same
    markers and the same [result], the cancel marker resolves to [None] and
    each of the four platform markers resolves to the identifier of its
    platform: pc, psn, xbl, nintendo-switch. *)
Theorem link_result_markers (env : Env) (st : Store) (r : Reaction) :
  reactions (obj st) = reactions (Link.init env) ->
  (emoji r = cross_mark -> Link.result r st = (Return PyNone, st)) /\
  (emoji r = lit "<:battlenet:679469162724196387>" ->
   Link.result r st = (Return (PyStr (lit "pc")), st)) /\
  (emoji r = lit "<:psn:679468542541693128>" ->
   Link.result r st = (Return (PyStr (lit "psn")), st)) /\
  (emoji r = lit "<:xbl:679469487623503930>" ->
   Link.result r st = (Return (PyStr (lit "xbl")), st)) /\
  (emoji r = lit "<:nsw:752653766377078817>" ->
   Link.result r st = (Return (PyStr (lit "nintendo-switch")), st)) /\
  Update.result r st = Link.result r st /\
  (forall pf un, reactions (Update.init env pf un) = reactions (Link.init env)).
Proof.
  intros H. cbn [reactions Link.init with_reactions BasePaginator.init] in H.
  pose proof (Link_result_run st Link.platform_markers r H) as E.
  repeat match goal with |- _ /\ _ => split end;
    try (intros Hm; rewrite E, Hm; reflexivity); reflexivity.
Qed.

(** Witness of C7: Alice's link session on message 500 and the signal with
    the cancel marker. *)
Lemma link_result_markers_witness :
  Link.result (fst (Sample.signal 500 cross_mark Sample.alice))
    (Sample.session 500 (Link.init (Sample.env []))) =
  (Return PyNone, Sample.session 500 (Link.init (Sample.env []))).
Proof.
  assert (H : reactions (obj (Sample.session 500 (Link.init (Sample.env [])))) =
              reactions (Link.init (Sample.env [])))
    by (vm_compute; reflexivity).
  destruct (link_result_markers (Sample.env [])
              (Sample.session 500 (Link.init (Sample.env [])))
              (fst (Sample.signal 500 cross_mark Sample.alice)) H)
    as (Hcancel & _).
  apply Hcancel. reflexivity.
Defined.

(** C8. On a choice prompt, the entry at position i, counted from 1, gets
    the marker that encodes i, and that marker resolves to that entry; a
    signal whose marker encodes no position of the list, or is no numeral
    marker at all, is rejected by the filter, the wait goes on with the next
    signal, and [start] raises [NoChoice] when no signal is accepted. *)
Theorem choose_resolves_by_index
    (env : Env) (c : Context) (es : list str) (tmo : Q)
    (ttl img ftr : option str) (w : World) :
  add_reactions_allowed (permissions_for (ctx_channel c) (ctx_me c)) = true ->
  fault env (List.length (calls w)) = None ->
  let st0 := {| obj := Choose.init (Some es) tmo ttl img ftr; world := w |} in
  let marks := numerals (List.length es) in
  let found :=
    first_match (ctx_author c) (ctx_bot c) (rendered env w) (RList marks)
      (reaction_adds env) in
  (exists st1,
     Choose.start env c st0 = BasePaginator.start env Choose.result c st1 /\
     reactions (obj st1) = Some (RList marks) /\
     (forall i e, nth_error es i = Some e ->
        nth_error marks i = Some (Choose.marker (S i)) /\
        forall r, emoji r = Choose.marker (S i) ->
          Choose.result r (waiting env st1) =
          (Return (PyStr e), waiting env st1)) /\
     (forall r u rest, ~ In (emoji r) marks ->
        BasePaginator.check r u (waiting env st1) =
          (Return false, waiting env st1) /\
        first_accepted BasePaginator.check ((r, u) :: rest) (waiting env st1) =
        first_accepted BasePaginator.check rest (waiting env st1))) /\
  (forall j, j = O \/ (List.length es < j)%nat ->
     ~ In (Choose.marker j) marks) /\
  (found = None -> fst (Choose.start env c st0) = Raise NoChoice) /\
  (forall r u, found = Some (r, u) ->
     exists i e,
       emoji r = Choose.marker (S i) /\ nth_error es i = Some e /\
       fst (Choose.start env c st0) = Return (PyStr e)).
Proof.
  intros Hp Hf st0 marks found.
  destruct (Choose_start_prepared env c es tmo ttl img ftr w) as (e0 & E & _).
  fold st0 in E. fold marks in E.
  set (st1 := {| obj := prepared c _ _ e0 _; world := w |}) in E.
  assert (Hrun := start_run env Choose.result c st1 c (ctx_author c) (ctx_bot c)
                    (RList marks)
                    Choose_result_reads Hp eq_refl eq_refl eq_refl eq_refl Hf).
  rewrite <- E in Hrun.
  change (first_match _ _ _ _ _) with found in Hrun.
  assert (Hres : forall i e r, nth_error es i = Some e ->
            emoji r = Choose.marker (S i) ->
            Choose.result r (waiting env st1) =
            (Return (PyStr e), waiting env st1)).
  { intros i e r Hi Hr.
    apply (Choose_result_run (waiting env st1) es i e r); auto. }
  split; [|split; [|split]].
  - exists st1. split; [exact E|]. split; [reflexivity|]. split.
    + intros i e Hi. split.
      * apply nth_error_numerals, nth_error_Some. congruence.
      * intros r Hr. eapply Hres; eauto.
    + intros r u rest Hnot.
      assert (Hck : BasePaginator.check r u (waiting env st1) =
                    (Return false, waiting env st1)).
      { rewrite (check_run (ctx_author c) (ctx_bot c) (rendered env (world st1))
                   (RList marks)) by reflexivity.
        f_equal. f_equal. apply not_true_is_false. intros Hacc.
        apply acceptsb_spec in Hacc. unfold accepts in Hacc. cbn in Hacc.
        tauto. }
      split; [exact Hck|].
      cbn [first_accepted]. unfold bind at 1. rewrite Hck. reflexivity.
  - intros j Hj Hin. apply In_numerals in Hin. lia.
  - intros Hnone. rewrite Hrun, Hnone. reflexivity.
  - intros r u Hsome. rewrite Hrun, Hsome. cbn [fst].
    pose proof Hsome as Hfind. unfold found, first_match in Hfind.
    apply find_some in Hfind. destruct Hfind as [_ Hacc]. cbn [fst snd] in Hacc.
    apply acceptsb_spec in Hacc. destruct Hacc as (_ & _ & _ & Hin).
    cbn [markers] in Hin. apply In_numerals_inv in Hin.
    destruct Hin as (i & Hi & Hr).
    destruct (nth_error es i) as [e|] eqn:He;
      [|apply nth_error_None in He; lia].
    exists i, e. split; [exact Hr|]. split; [exact He|].
    rewrite (Hres i e r He Hr). reflexivity.
Qed.

(** Witness of C8: the entries A, B, C. Alice first selects the marker of a
    fifth entry, which is skipped, then the marker of the second. *)
Lemma choose_resolves_by_index_witness :
  fst (Choose.start
         (Sample.env [Sample.signal 500 (Choose.marker 5) Sample.alice;
                      Sample.signal 500 (Choose.marker 2) Sample.alice])
         (Sample.context true)
         {| obj := Sample.choose None; world := Sample.empty |}) =
  Return (PyStr (lit "B")).
Proof.
  destruct (choose_resolves_by_index
              (Sample.env [Sample.signal 500 (Choose.marker 5) Sample.alice;
                           Sample.signal 500 (Choose.marker 2) Sample.alice])
              (Sample.context true) Sample.abc (30 # 1) None None None
              Sample.empty eq_refl eq_refl)
    as (_ & _ & _ & Hsome).
  destruct (Hsome (fst (Sample.signal 500 (Choose.marker 2) Sample.alice))
              Sample.alice eq_refl) as (i & e & Hm & He & Hrun).
  apply marker_inj in Hm. injection Hm as <-.
  cbn in He. injection He as <-. exact Hrun.
Defined.

(** ** Attaching the markers *)

Lemma lookup_attach (id : Z) (x : str) (l : list (Z * list str)) (old : list str) :
  lookup_message id l = Some old ->
  lookup_message id (attach id x l) = Some (old ++ [x]).
Proof.
  induction l as [|[i rs] l IH]; cbn; [discriminate|].
  destruct (Z.eqb_spec i id) as [E|E]; cbn.
  - intros H; inversion H; subst. rewrite Z.eqb_refl. reflexivity.
  - intros H. destruct (Z.eqb_spec i id); [contradiction | auto].
Qed.

(** One turn of the loop whose request goes through. *)
Lemma add_reactions_loop_next env m x rest st old :
  message (obj st) = Some m ->
  lookup_message (message_id m) (posted (world st)) = Some old ->
  fault env (List.length (calls (world st))) = None ->
  BasePaginator.add_reactions_loop env (x :: rest) st =
  BasePaginator.add_reactions_loop env rest
    {| obj := obj st;
       world :=
         {| posted := attach (message_id m) x (posted (world st));
            calls := calls (world st) ++ [CallAddReaction (message_id m) x];
            tasks := tasks (world st) |} |}.
Proof.
  intros Hm Hl Hf. cbn [BasePaginator.add_reactions_loop].
  unfold bind at 1, try_except, add_reaction; run.
  rewrite Hm; cbn. rewrite Hf, Hl. reflexivity.
Qed.

(** One turn of the loop whose request fails: the loop returns. *)
Lemma add_reactions_loop_stop env m x rest st f :
  message (obj st) = Some m ->
  fault env (List.length (calls (world st))) = Some f ->
  BasePaginator.add_reactions_loop env (x :: rest) st =
  (Return tt,
   {| obj := obj st;
      world := log_call (CallAddReaction (message_id m) x) (world st) |}).
Proof.
  intros Hm Hf. cbn [BasePaginator.add_reactions_loop].
  unfold bind at 1, try_except, add_reaction; run.
  rewrite Hm; cbn. rewrite Hf. destruct f; reflexivity.
Qed.

(** The turns of the loop whose requests all go through. *)
Lemma add_reactions_loop_prefix env m (pre : list str) :
  forall (rest : list str) (st : Store) (old : list str),
    message (obj st) = Some m ->
    lookup_message (message_id m) (posted (world st)) = Some old ->
    (forall i, (i < List.length pre)%nat ->
               fault env (List.length (calls (world st)) + i) = None) ->
    exists w,
      BasePaginator.add_reactions_loop env (pre ++ rest) st =
      BasePaginator.add_reactions_loop env rest {| obj := obj st; world := w |} /\
      calls w =
        calls (world st) ++ List.map (CallAddReaction (message_id m)) pre /\
      lookup_message (message_id m) (posted w) = Some (old ++ pre) /\
      tasks w = tasks (world st).
Proof.
  induction pre as [|x pre IH]; intros rest st old Hm Hl Hf.
  - exists (world st). cbn [app List.map]. rewrite !app_nil_r, store_eta. auto.
  - cbn [app]. rewrite (add_reactions_loop_next env m x _ st old Hm Hl).
    2:{ specialize (Hf O). rewrite Nat.add_0_r in Hf. apply Hf. cbn; lia. }
    match goal with
    | |- context [BasePaginator.add_reactions_loop env (pre ++ rest) ?s] =>
        destruct (IH rest s (old ++ [x])) as (w & E & Hc & Hp & Ht)
    end.
    + exact Hm.
    + cbn [world posted]. apply lookup_attach, Hl.
    + intros i Hi. cbn [world calls]. rewrite length_app. cbn [List.length].
      rewrite <- Nat.add_assoc. apply Hf. cbn; lia.
    + exists w. cbn [obj] in E. split; [exact E|].
      cbn [world calls tasks] in Hc, Ht. rewrite Hc, Hp, <- !app_assoc. auto.
Qed.

Lemma add_reactions_loop_returns env m (pending : list str) :
  forall st : Store,
    message (obj st) = Some m ->
    fst (BasePaginator.add_reactions_loop env pending st) = Return tt.
Proof.
  induction pending as [|x rest IH]; intros st Hm; [reflexivity|].
  cbn [BasePaginator.add_reactions_loop].
  unfold bind at 1, try_except, add_reaction; run. rewrite Hm; cbn.
  destruct (fault env _) as [[]|]; cbn; try reflexivity.
  destruct (lookup_message _ _); cbn; [|reflexivity].
  apply IH. exact Hm.
Qed.

(** C9. [add_reactions] requests the markers of the prompt one by one, in
    the order of the marker set.  When the request for a marker fails, no
    further request is made, the markers attached before it stay on the
    message, and [add_reactions] returns; when no request fails every marker
    is attached.  In no case does [add_reactions] raise. *)
Theorem add_reactions_stops_at_first_failure
    (env : Env) (st : Store) (m : Message) (rs : Reactions) (old : list str) :
  message (obj st) = Some m ->
  reactions (obj st) = Some rs ->
  lookup_message (message_id m) (posted (world st)) = Some old ->
  (forall pre x post f,
     markers rs = pre ++ x :: post ->
     (forall i, (i < List.length pre)%nat ->
                fault env (List.length (calls (world st)) + i) = None) ->
     fault env (List.length (calls (world st)) + List.length pre) = Some f ->
     exists w,
       BasePaginator.add_reactions env st =
         (Return tt, {| obj := obj st; world := w |}) /\
       calls w =
         calls (world st) ++
         List.map (CallAddReaction (message_id m)) (pre ++ [x]) /\
       lookup_message (message_id m) (posted w) = Some (old ++ pre)) /\
  ((forall i, (i < List.length (markers rs))%nat ->
              fault env (List.length (calls (world st)) + i) = None) ->
   exists w,
     BasePaginator.add_reactions env st =
       (Return tt, {| obj := obj st; world := w |}) /\
     calls w =
       calls (world st) ++
       List.map (CallAddReaction (message_id m)) (markers rs) /\
     lookup_message (message_id m) (posted w) = Some (old ++ markers rs)) /\
  fst (BasePaginator.add_reactions env st) = Return tt.
Proof.
  intros Hm Hrs Hl.
  assert (Hstart : BasePaginator.add_reactions env st =
                   BasePaginator.add_reactions_loop env (markers rs) st).
  { unfold BasePaginator.add_reactions; run. rewrite Hrs. reflexivity. }
  rewrite Hstart. split; [|split].
  - intros pre x post f Hsplit Hok Hfail. rewrite Hsplit.
    destruct (add_reactions_loop_prefix env m pre (x :: post) st old Hm Hl Hok)
      as (w & E & Hc & Hp & _).
    rewrite E.
    rewrite (add_reactions_loop_stop env m x post
               {| obj := obj st; world := w |} f Hm).
    2:{ cbn [world]. rewrite Hc, length_app, length_map. exact Hfail. }
    eexists. split; [reflexivity|]. unfold log_call. cbn [posted calls world].
    split.
    + rewrite Hc, map_app, app_assoc. reflexivity.
    + exact Hp.
  - intros Hok.
    destruct (add_reactions_loop_prefix env m (markers rs) [] st old Hm Hl Hok)
      as (w & E & Hc & Hp & _).
    rewrite app_nil_r in E. rewrite E. exists w. auto.
  - apply (add_reactions_loop_returns env m), Hm.
Qed.

(** Witness of C9: the link prompt on message 500, where the third request
    is forbidden: two markers are attached, three requests are made. *)
Lemma add_reactions_stops_at_first_failure_witness :
  exists w,
    BasePaginator.add_reactions (Sample.failing 2 ErrForbidden [])
      (Sample.session 500 (Link.init (Sample.env []))) =
    (Return tt,
     {| obj := obj (Sample.session 500 (Link.init (Sample.env []))); world := w |}) /\
    calls w =
      [CallAddReaction 500 (lit "<:battlenet:679469162724196387>");
       CallAddReaction 500 (lit "<:psn:679468542541693128>");
       CallAddReaction 500 (lit "<:xbl:679469487623503930>")] /\
    lookup_message 500 (posted w) =
      Some [lit "<:battlenet:679469162724196387>";
            lit "<:psn:679468542541693128>"].
Proof.
  destruct (add_reactions_stops_at_first_failure
              (Sample.failing 2 ErrForbidden [])
              (Sample.session 500 (Link.init (Sample.env [])))
              {| message_id := 500 |} (RDict Link.platform_markers) []
              eq_refl eq_refl eq_refl) as (Hstop & _).
  apply (Hstop [lit "<:battlenet:679469162724196387>";
                lit "<:psn:679468542541693128>"]
               (lit "<:xbl:679469487623503930>")
               [lit "<:nsw:752653766377078817>"; cross_mark]
               ErrForbidden eq_refl).
  - intros [|[|i]] Hi; cbn in *; [reflexivity | reflexivity | lia].
  - reflexivity.
Defined.

(** ** Further properties of the session *)

(** When the send fails, nothing else happens. *)
Lemma start_send_fails env self_result c c0 st f :
  add_reactions_allowed (permissions_for (ctx_channel c) (ctx_me c)) = true ->
  ctx (obj st) = Some c0 ->
  fault env (List.length (calls (world st))) = Some f ->
  BasePaginator.start env self_result c st =
  (Raise (exn_of f),
   {| obj := obj st; world := log_call (CallSend (embed (obj st))) (world st) |}).
Proof.
  intros Hp Hc Hf. unfold BasePaginator.start. rewrite Hp; cbn [negb].
  unfold BasePaginator.paginator, send; run. rewrite Hc; cbn. rewrite Hf.
  reflexivity.
Qed.

Lemma prepared_send_fails env c self_result w rs body e p f :
  add_reactions_allowed (permissions_for (ctx_channel c) (ctx_me c)) = true ->
  fault env (List.length (calls w)) = Some f ->
  BasePaginator.start env self_result c
    {| obj := prepared c rs body e p; world := w |} =
  (Raise (exn_of f),
   {| obj := prepared c rs body e p; world := log_call (CallSend (Some e)) w |}).
Proof.
  intros Hp Hf.
  exact (start_send_fails env self_result c c
           {| obj := prepared c rs body e p; world := w |} f Hp eq_refl Hf).
Qed.

(** X1. When the request that sends the display fails, [start] raises the
    error of that request as it is: the message of the prompt stays unset,
    no task is created and no delete is requested; the failed send is the
    only request.  This holds of [BasePaginator.start] and of the [start] of
    a link, update or choice prompt just constructed. *)
Theorem send_failure_propagates
    (env : Env) (self_result : Reaction -> M pyval) (c c0 : Context)
    (st : Store) (f : http_error) :
  add_reactions_allowed (permissions_for (ctx_channel c) (ctx_me c)) = true ->
  (ctx (obj st) = Some c0 ->
   fault env (List.length (calls (world st))) = Some f ->
   BasePaginator.start env self_result c st =
   (Raise (exn_of f),
    {| obj := obj st;
       world := log_call (CallSend (embed (obj st))) (world st) |})) /\
  (forall w, fault env (List.length (calls w)) = Some f ->
     exists e p,
       Link.start env c {| obj := Link.init env; world := w |} =
       (Raise (exn_of f),
        {| obj := p; world := log_call (CallSend (Some e)) w |}) /\
       message p = None) /\
  (forall w pf un, fault env (List.length (calls w)) = Some f ->
     exists e p,
       Update.start env c {| obj := Update.init env pf un; world := w |} =
       (Raise (exn_of f),
        {| obj := p; world := log_call (CallSend (Some e)) w |}) /\
       message p = None) /\
  (forall w es tmo ttl img ftr, fault env (List.length (calls w)) = Some f ->
     exists e p,
       Choose.start env c
         {| obj := Choose.init (Some es) tmo ttl img ftr; world := w |} =
       (Raise (exn_of f),
        {| obj := p; world := log_call (CallSend (Some e)) w |}) /\
       message p = None).
Proof.
  intros Hp. split; [|split; [|split]].
  - intros Hc Hf. eapply start_send_fails; eauto.
  - intros w Hf. destruct (Link_start_prepared env c w) as (e & E & _).
    exists e. eexists. rewrite E. split.
    + apply prepared_send_fails; assumption.
    + reflexivity.
  - intros w pf un Hf.
    destruct (Update_start_prepared env c w pf un) as (e & E & _).
    exists e. eexists. rewrite E. split.
    + apply prepared_send_fails; assumption.
    + reflexivity.
  - intros w es tmo ttl img ftr Hf.
    destruct (Choose_start_prepared env c es tmo ttl img ftr w) as (e & E & _).
    exists e. eexists. rewrite E. split.
    + apply prepared_send_fails; assumption.
    + reflexivity.
Qed.

(** Witness of X1: the send of a link prompt is forbidden. *)
Lemma send_failure_propagates_witness :
  exists e p,
    Link.start (Sample.failing 0 ErrForbidden []) (Sample.context true)
      {| obj := Link.init (Sample.failing 0 ErrForbidden []);
         world := Sample.empty |} =
    (Raise Forbidden,
     {| obj := p; world := log_call (CallSend (Some e)) Sample.empty |}) /\
    message p = None.
Proof.
  destruct (send_failure_propagates (Sample.failing 0 ErrForbidden [])
              Link.result (Sample.context true) (Sample.context true)
              (Sample.entered (Link.init (Sample.env []))) ErrForbidden
              eq_refl) as (_ & H & _).
  exact (H Sample.empty eq_refl).
Defined.

(** The value of [yield] on a session whose fields are set. *)
Lemma yield_run env self_result st a b rs :
  author (obj st) = Some a -> bot (obj st) = Some b ->
  reactions (obj st) = Some rs ->
  yield env self_result st =
  match first_match a b (rendered env (world st)) rs (reaction_adds env) with
  | Some ev => fst (self_result (fst ev) (waiting env st))
  | None => Raise NoChoice
  end.
Proof.
  intros Ha Hb Hrs. unfold yield, wait_for.
  rewrite (first_accepted_run a b (rendered env (world st)) rs) by (cbn; auto).
  cbn [fst]. destruct (first_match _ _ _ _ _); reflexivity.
Qed.

Lemma first_match_first a b m rs pre r u post :
  (forall r' u', In (r', u') pre -> ~ accepts a b m rs r' u') ->
  accepts a b m rs r u ->
  first_match a b m rs (pre ++ (r, u) :: post) = Some (r, u).
Proof.
  intros Hpre Hacc. unfold first_match.
  induction pre as [|[r' u'] pre IH]; cbn [app find fst snd].
  - apply acceptsb_spec in Hacc. rewrite Hacc. reflexivity.
  - destruct (acceptsb a b m rs r' u') eqn:E.
    + apply acceptsb_spec in E. elim (Hpre r' u'); [left; reflexivity | exact E].
    + apply IH. intros r0 u0 Hin. apply Hpre. right. exact Hin.
Qed.

(** What a session leaves behind: the object of the wait, and one task
    more. *)
Lemma paginator_store env self_result st c0 b :
  (forall r s, snd (self_result r s) = s) ->
  ctx (obj st) = Some c0 -> bot (obj st) = Some b ->
  fault env (List.length (calls (world st))) = None ->
  exists w,
    BasePaginator.paginator env self_result st =
      (yield env self_result st,
       {| obj := with_message (Some (rendered env (world st))) (obj st);
          world := w |}) /\
    tasks w = tasks (world st) ++ [TaskAddReactions].
Proof.
  intros Hres Hc Hb Hf.
  rewrite (paginator_enters_wait env self_result st c0 b) by assumption.
  unfold try_except_else_finally, yield, wait_for.
  pose proof (first_accepted_reads (reaction_adds env) (waiting env st)) as E1.
  destruct (first_accepted _ _ (waiting env st)) as [o1 st1]; cbn in E1; subst.
  cbn [fst].
  destruct (cleanup_run env (waiting env st) (rendered env (world st)) eq_refl)
    as (w & Ecl & _ & Htasks & _).
  exists w. split.
  - destruct o1 as [acc|e].
    + pose proof (Hres (fst acc) (waiting env st)) as E.
      destruct (self_result (fst acc) (waiting env st)) as [o s]; cbn in *.
      subst. rewrite Ecl. reflexivity.
    + destruct (caught_by [TimeoutError] e); cbn [raise]; rewrite Ecl;
        reflexivity.
  - rewrite Htasks. reflexivity.
Qed.

(** X2. A session changes nothing of the prompt object but its [message],
    which it sets to the message it sent and leaves set after the delete,
    and it creates exactly one task, the one attaching the markers.  So the
    configuration a choice prompt was constructed with is still there after
    [start]. *)
Theorem session_frame
    (env : Env) (self_result : Reaction -> M pyval) (c c0 : Context)
    (st : Store) (b : Bot) :
  add_reactions_allowed (permissions_for (ctx_channel c) (ctx_me c)) = true ->
  ((forall r s, snd (self_result r s) = s) ->
   ctx (obj st) = Some c0 -> bot (obj st) = Some b ->
   fault env (List.length (calls (world st))) = None ->
   exists st',
     snd (BasePaginator.start env self_result c st) = st' /\
     obj st' = with_message (Some (rendered env (world st))) (obj st) /\
     tasks (world st') = tasks (world st) ++ [TaskAddReactions]) /\
  (forall w es tmo ttl img ftr,
     fault env (List.length (calls w)) = None ->
     exists st',
       snd (Choose.start env c
              {| obj := Choose.init (Some es) tmo ttl img ftr; world := w |}) =
       st' /\
       entries (obj st') = Some es /\ timeout (obj st') = tmo /\
       title (obj st') = ttl /\ image (obj st') = img /\
       footer (obj st') = ftr /\
       message (obj st') = Some (rendered env w) /\
       tasks (world st') = tasks w ++ [TaskAddReactions]).
Proof.
  intros Hp. split.
  - intros Hres Hc Hb Hf. unfold BasePaginator.start. rewrite Hp; cbn [negb].
    destruct (paginator_store env self_result st c0 b Hres Hc Hb Hf)
      as (w & -> & Htasks).
    eexists. split; [reflexivity|]. cbn [snd obj world]. auto.
  - intros w es tmo ttl img ftr Hf.
    destruct (Choose_start_prepared env c es tmo ttl img ftr w) as (e & E & _).
    rewrite E. unfold BasePaginator.start. rewrite Hp; cbn [negb].
    match goal with
    | |- context [BasePaginator.paginator env _ ?s] =>
        destruct (paginator_store env Choose.result s c (ctx_bot c)
                    Choose_result_reads eq_refl eq_refl Hf)
          as (w' & -> & Htasks)
    end.
    eexists. split; [reflexivity|]. cbn [snd obj world] in *.
    repeat split; try reflexivity. exact Htasks.
Qed.

(** Witness of X2: a choice prompt over A, B, C that no one answers. *)
Lemma session_frame_witness :
  exists st',
    snd (Choose.start (Sample.env []) (Sample.context true)
           {| obj := Sample.choose None; world := Sample.empty |}) = st' /\
    entries (obj st') = Some Sample.abc /\
    message (obj st') = Some {| message_id := 500 |} /\
    tasks (world st') = [TaskAddReactions].
Proof.
  destruct (session_frame (Sample.env []) Choose.result (Sample.context true)
              (Sample.context true) (Sample.entered (Sample.choose None))
              Sample.the_bot eq_refl) as (_ & H).
  destruct (H Sample.empty Sample.abc (30 # 1) None None None eq_refl)
    as (st' & E & He & _ & _ & _ & _ & Hm & Ht).
  exists st'. auto.
Defined.

(** X3. A prompt whose class does not supply [result] cannot resolve: when
    the filter accepts a signal, [start] raises [NotImplementedError], after
    the delete of the rendered message has been requested. *)
Theorem unimplemented_result_raises
    (env : Env) (c c0 : Context) (st : Store) (a : User) (b : Bot)
    (rs : Reactions) (ev : Reaction * User) :
  add_reactions_allowed (permissions_for (ctx_channel c) (ctx_me c)) = true ->
  ctx (obj st) = Some c0 -> bot (obj st) = Some b ->
  author (obj st) = Some a -> reactions (obj st) = Some rs ->
  fault env (List.length (calls (world st))) = None ->
  first_match a b (rendered env (world st)) rs (reaction_adds env) = Some ev ->
  ends_cleaned env (BasePaginator.start env BasePaginator.result c) st
    (embed (obj st)) (Raise NotImplementedError).
Proof.
  intros Hp Hc Hb Ha Hrs Hf Hev.
  pose proof (start_session env BasePaginator.result c c0 st b
                (fun _ _ => eq_refl) Hp Hc Hb Hf) as H.
  rewrite (yield_run env BasePaginator.result st a b rs Ha Hb Hrs), Hev in H.
  exact H.
Qed.

(** Witness of X3: Alice selects the cancel marker on a prompt without [result]. *)
Lemma unimplemented_result_raises_witness :
  ends_cleaned (Sample.env [Sample.signal 500 cross_mark Sample.alice])
    (BasePaginator.start
       (Sample.env [Sample.signal 500 cross_mark Sample.alice])
       BasePaginator.result (Sample.context true))
    (Sample.entered (Link.init (Sample.env [])))
    None (Raise NotImplementedError).
Proof.
  apply (unimplemented_result_raises
           (Sample.env [Sample.signal 500 cross_mark Sample.alice])
           (Sample.context true) (Sample.context true)
           (Sample.entered (Link.init (Sample.env [])))
           Sample.alice Sample.the_bot (RDict Link.platform_markers)
           (Sample.signal 500 cross_mark Sample.alice));
    reflexivity.
Defined.

(** X4. The session resolves the first signal that the filter accepts: the
    signals before it, which the filter rejects, and all the signals after
    it have no part in what [start] returns or raises. *)
Theorem first_accepted_signal_wins
    (env : Env) (self_result : Reaction -> M pyval) (c c0 : Context)
    (st : Store) (a : User) (b : Bot) (rs : Reactions)
    (pre post : list (Reaction * User)) (r : Reaction) (u : User) :
  (forall r s, snd (self_result r s) = s) ->
  add_reactions_allowed (permissions_for (ctx_channel c) (ctx_me c)) = true ->
  ctx (obj st) = Some c0 -> bot (obj st) = Some b ->
  author (obj st) = Some a -> reactions (obj st) = Some rs ->
  fault env (List.length (calls (world st))) = None ->
  reaction_adds env = pre ++ (r, u) :: post ->
  (forall r' u', In (r', u') pre ->
                 ~ accepts a b (rendered env (world st)) rs r' u') ->
  accepts a b (rendered env (world st)) rs r u ->
  fst (BasePaginator.start env self_result c st) =
  fst (self_result r (waiting env st)).
Proof.
  intros Hres Hp Hc Hb Ha Hrs Hf Hev Hpre Hacc.
  rewrite (start_run env self_result c st c0 a b rs) by assumption.
  rewrite Hev, (first_match_first _ _ _ _ pre r u post Hpre Hacc).
  reflexivity.
Qed.

(** Witness of X4: Bob's signal is rejected, Alice's first signal is resolved, her second is not. *)
Lemma first_accepted_signal_wins_witness :
  fst (BasePaginator.start
         (Sample.env [Sample.signal 500 cross_mark Sample.bob;
                      Sample.signal 500 (lit "<:psn:679468542541693128>")
                        Sample.alice;
                      Sample.signal 500 cross_mark Sample.alice])
         Link.result (Sample.context true)
         (Sample.entered (Link.init (Sample.env [])))) =
  Return (PyStr (lit "psn")).
Proof.
  apply (first_accepted_signal_wins
           (Sample.env [Sample.signal 500 cross_mark Sample.bob;
                        Sample.signal 500 (lit "<:psn:679468542541693128>")
                          Sample.alice;
                        Sample.signal 500 cross_mark Sample.alice])
           Link.result (Sample.context true) (Sample.context true)
           (Sample.entered (Link.init (Sample.env [])))
           Sample.alice Sample.the_bot (RDict Link.platform_markers)
           [Sample.signal 500 cross_mark Sample.bob]
           [Sample.signal 500 cross_mark Sample.alice]
           (fst (Sample.signal 500 (lit "<:psn:679468542541693128>")
                   Sample.alice))
           Sample.alice Link_result_reads);
    try reflexivity.
  - intros r' u' [E|[]]. inversion E; subst. unfold accepts. cbn. lia.
  - unfold accepts. cbn. repeat split; try lia. tauto.
Defined.

(** ** Prompts that cannot be answered *)

Lemma check_early_rejected a b m r u st :
  author (obj st) = Some a -> bot (obj st) = Some b ->
  message (obj st) = Some m ->
  early_rejected a b m r u ->
  BasePaginator.check r u st = (Return false, st).
Proof.
  intros Ha Hb Hm Hrej. unfold BasePaginator.check; run. rewrite Ha; cbn.
  destruct (Z.eqb_spec (user_id u) (user_id a)) as [E1|E1]; cbn;
    [|reflexivity].
  rewrite Hb; cbn.
  destruct (Z.eqb_spec (user_id u) (user_id (bot_user b))) as [E2|E2]; cbn;
    [reflexivity|].
  rewrite Hm; cbn.
  destruct (Z.eqb_spec (message_id (reaction_message r)) (message_id m))
    as [E3|E3]; cbn; [|reflexivity].
  unfold early_rejected in Hrej. tauto.
Qed.

Lemma check_without_markers a b m r u st :
  author (obj st) = Some a -> bot (obj st) = Some b ->
  message (obj st) = Some m -> reactions (obj st) = None ->
  ~ early_rejected a b m r u ->
  BasePaginator.check r u st = (Raise TypeError, st).
Proof.
  intros Ha Hb Hm Hrs Hrej. unfold BasePaginator.check; run. rewrite Ha; cbn.
  unfold early_rejected in Hrej.
  destruct (Z.eqb_spec (user_id u) (user_id a)) as [E1|E1]; cbn; [|tauto].
  rewrite Hb; cbn.
  destruct (Z.eqb_spec (user_id u) (user_id (bot_user b))) as [E2|E2]; cbn;
    [tauto|].
  rewrite Hm; cbn.
  destruct (Z.eqb_spec (message_id (reaction_message r)) (message_id m))
    as [E3|E3]; cbn; [|tauto].
  rewrite Hrs. reflexivity.
Qed.

Lemma first_accepted_without_markers a b m st pre r u post :
  author (obj st) = Some a -> bot (obj st) = Some b ->
  message (obj st) = Some m -> reactions (obj st) = None ->
  (forall r' u', In (r', u') pre -> early_rejected a b m r' u') ->
  ~ early_rejected a b m r u ->
  first_accepted BasePaginator.check (pre ++ (r, u) :: post) st =
  (Raise TypeError, st).
Proof.
  intros Ha Hb Hm Hrs Hpre Hnot.
  induction pre as [|[r' u'] pre IH]; cbn [app first_accepted].
  - unfold bind. rewrite (check_without_markers a b m r u st) by assumption.
    reflexivity.
  - unfold bind at 1.
    rewrite (check_early_rejected a b m r' u' st Ha Hb Hm)
      by (apply Hpre; left; reflexivity).
    apply IH. intros r0 u0 Hin. apply Hpre. right. exact Hin.
Qed.

(** X5. On a prompt whose marker set was never set, as [BasePaginator]
    leaves it, the filter raises [TypeError] on the first signal that passes
    its tests on the user and on the message, and [start] raises that
    [TypeError], after the delete of the rendered message has been
    requested. *)
Theorem unset_markers_raise_TypeError
    (env : Env) (self_result : Reaction -> M pyval) (c c0 : Context)
    (st : Store) (a : User) (b : Bot)
    (pre post : list (Reaction * User)) (r : Reaction) (u : User) :
  add_reactions_allowed (permissions_for (ctx_channel c) (ctx_me c)) = true ->
  ctx (obj st) = Some c0 -> bot (obj st) = Some b ->
  author (obj st) = Some a -> reactions (obj st) = None ->
  fault env (List.length (calls (world st))) = None ->
  reaction_adds env = pre ++ (r, u) :: post ->
  (forall r' u', In (r', u') pre ->
                 early_rejected a b (rendered env (world st)) r' u') ->
  ~ early_rejected a b (rendered env (world st)) r u ->
  ends_cleaned env (BasePaginator.start env self_result c) st
    (embed (obj st)) (Raise TypeError).
Proof.
  intros Hp Hc Hb Ha Hrs Hf Hev Hpre Hnot. unfold ends_cleaned.
  unfold BasePaginator.start. rewrite Hp; cbn [negb].
  rewrite (paginator_enters_wait env self_result st c0 b) by assumption.
  unfold try_except_else_finally, wait_for. rewrite Hev.
  rewrite (first_accepted_without_markers a b (rendered env (world st))
             (waiting env st) pre r u post) by (cbn; auto).
  cbn [caught_by existsb issubclass exn_eqb orb].
  destruct (cleanup_run env (waiting env st) (rendered env (world st)) eq_refl)
    as (w & -> & Hcalls & _ & Hgone).
  eexists. split; [reflexivity|]. cbn [world]. split.
  - rewrite Hcalls. cbn. rewrite <- app_assoc. reflexivity.
  - intros Hf2. apply Hgone. cbn. rewrite length_app. cbn.
    rewrite Nat.add_1_r. exact Hf2.
Qed.

(** Witness of X5: a prompt with no marker set; Bob's signal is rejected
    early, Alice's reaches the markers. *)
Lemma unset_markers_raise_TypeError_witness :
  ends_cleaned
    (Sample.env [Sample.signal 500 cross_mark Sample.bob;
                 Sample.signal 500 cross_mark Sample.alice])
    (BasePaginator.start
       (Sample.env [Sample.signal 500 cross_mark Sample.bob;
                    Sample.signal 500 cross_mark Sample.alice])
       BasePaginator.result (Sample.context true))
    (Sample.entered
       (BasePaginator.init None (30 # 1) None None None))
    None (Raise TypeError).
Proof.
  apply (unset_markers_raise_TypeError
           (Sample.env [Sample.signal 500 cross_mark Sample.bob;
                        Sample.signal 500 cross_mark Sample.alice])
           BasePaginator.result (Sample.context true) (Sample.context true)
           (Sample.entered (BasePaginator.init None (30 # 1) None None None))
           Sample.alice Sample.the_bot
           [Sample.signal 500 cross_mark Sample.bob] []
           (fst (Sample.signal 500 cross_mark Sample.alice)) Sample.alice);
    try reflexivity.
  - intros r' u' [E|[]]. inversion E; subst. left. cbn. lia.
  - unfold early_rejected. cbn. lia.
Defined.

(** X6. A choice prompt constructed without entries fails in [start] with
    [TypeError], whatever the channel permits: the display is rendered on
    the prompt object, but no request is made and no task is created. *)
Theorem choose_without_entries_raises
    (env : Env) (c : Context) (tmo : Q) (ttl img ftr : option str)
    (w : World) :
  exists p,
    Choose.start env c
      {| obj := Choose.init None tmo ttl img ftr; world := w |} =
    (Raise TypeError, {| obj := p; world := w |}) /\
    embed p <> None /\ reactions p = Some (RList []) /\ message p = None.
Proof.
  set (p0 := Choose.init None tmo ttl img ftr).
  set (st := {| obj := with_author (Some (ctx_author c))
                         (with_bot (Some (ctx_bot c)) (with_ctx (Some c) p0));
                world := w |}).
  destruct (init_embed_run st (ctx_bot c) (ctx_author c) eq_refl eq_refl)
    as (e & E & _).
  eexists. split.
  - unfold Choose.start. do 3 step. unfold bind at 1. fold st. rewrite E.
    subst st p0. fields. do 2 step. fields. reflexivity.
  - cbn. repeat split. discriminate.
Qed.

(** X7. A choice prompt over an empty list has no marker, so its filter
    accepts no signal: whatever signals arrive, [start] raises [NoChoice],
    after the send and the delete. *)
Theorem choose_over_nothing_times_out
    (env : Env) (c : Context) (tmo : Q) (ttl img ftr : option str)
    (w : World) :
  add_reactions_allowed (permissions_for (ctx_channel c) (ctx_me c)) = true ->
  fault env (List.length (calls w)) = None ->
  exists e,
    ends_cleaned env (Choose.start env c)
      {| obj := Choose.init (Some []) tmo ttl img ftr; world := w |}
      (Some e) (Raise NoChoice) /\
    embed_description e = Some (join [10%N] (overflow ttl)).
Proof.
  intros Hp Hf.
  destruct (Choose_start_prepared env c [] tmo ttl img ftr w)
    as (e & E & _ & Hd).
  exists e. split.
  - unfold ends_cleaned. cbn [world]. rewrite E.
    apply prepared_times_out; [assumption | assumption |].
    intros r u _ (_ & _ & _ & Hin). exact Hin.
  - rewrite Hd. cbn [numbered]. rewrite app_nil_r. reflexivity.
Qed.

(** Witness of X7: a choice prompt over no entry, and a signal with the first numeral. *)
Lemma choose_over_nothing_times_out_witness :
  exists e,
    ends_cleaned
      (Sample.env [Sample.signal 500 (Choose.marker 1) Sample.alice])
      (Choose.start
         (Sample.env [Sample.signal 500 (Choose.marker 1) Sample.alice])
         (Sample.context true))
      {| obj := Choose.init (Some []) (30 # 1) None None None;
         world := Sample.empty |}
      (Some e) (Raise NoChoice) /\
    embed_description e = Some (join [10%N] (overflow None)).
Proof.
  apply (choose_over_nothing_times_out
           (Sample.env [Sample.signal 500 (Choose.marker 1) Sample.alice])
           (Sample.context true) (30 # 1) None None None Sample.empty);
    reflexivity.
Defined.

(** ** What the displays show *)

Lemma Link_start_shown env c w :
  exists e,
    Link.start env c {| obj := Link.init env; world := w |} =
    BasePaginator.start env Link.result c
      {| obj := prepared c (RDict Link.platform_markers)
                  (overflow (title (Link.init env)) ++ platform_lines)
                  e (Link.init env);
         world := w |} /\
    headed (ctx_bot c) (ctx_author c) (Link.init env) e /\
    embed_description e =
      Some (join [10%N] (overflow (title (Link.init env)) ++ platform_lines)) /\
    embed_fields e = [].
Proof.
  set (p0 := Link.init env).
  set (st := {| obj := with_author (Some (ctx_author c))
                         (with_bot (Some (ctx_bot c)) (with_ctx (Some c) p0));
                world := w |}).
  destruct (init_embed_shows st (ctx_bot c) (ctx_author c) eq_refl eq_refl)
    as (e & E & Hh & Hd & Hfs).
  exists (set_embed_description e
            (join [10%N] (overflow (title p0) ++ platform_lines))).
  split; [|split; [exact Hh | split; [reflexivity | exact Hfs]]].
  unfold Link.start. do 3 step. unfold bind at 1. fold st. rewrite E.
  subst st p0. fields. do 2 step. fields.
  unfold reactions_items. step.
  unfold bind at 1. rewrite describe_run, described_platform_markers. fields.
  unfold bind at 1, join_description, attr. step. fields.
  reflexivity.
Qed.

Lemma Choose_start_shown env c es tmo ttl img ftr w :
  exists e,
    Choose.start env c
      {| obj := Choose.init (Some es) tmo ttl img ftr; world := w |} =
    BasePaginator.start env Choose.result c
      {| obj := prepared c (RList (numerals (List.length es)))
                  (overflow ttl ++ numbered 1 es)
                  e (Choose.init (Some es) tmo ttl img ftr);
         world := w |} /\
    headed (ctx_bot c) (ctx_author c)
      (Choose.init (Some es) tmo ttl img ftr) e /\
    embed_description e = Some (join [10%N] (overflow ttl ++ numbered 1 es)) /\
    embed_fields e = [].
Proof.
  set (p0 := Choose.init (Some es) tmo ttl img ftr).
  set (st := {| obj := with_author (Some (ctx_author c))
                         (with_bot (Some (ctx_bot c)) (with_ctx (Some c) p0));
                world := w |}).
  destruct (init_embed_shows st (ctx_bot c) (ctx_author c) eq_refl eq_refl)
    as (e & E & Hh & Hd & Hfs).
  exists (set_embed_description e (join [10%N] (overflow ttl ++ numbered 1 es))).
  split; [|split; [exact Hh | split; [reflexivity | exact Hfs]]].
  unfold Choose.start. do 3 step. unfold bind at 1. fold st. rewrite E.
  subst st p0. fields. do 2 step. fields.
  unfold bind at 1. erewrite number_run by reflexivity. fields.
  unfold bind at 1, join_description, attr. step. fields.
  reflexivity.
Qed.

Lemma numbered_length (es : list str) :
  forall k, List.length (numbered k es) = List.length es.
Proof.
  induction es as [|e es IH]; intros k; cbn; [reflexivity | now rewrite IH].
Qed.

Lemma numbered_nth (es : list str) :
  forall k i e,
    nth_error es i = Some e ->
    nth_error (numbered k es) i =
    Some (str_of_nat (k + i) ++ lit ". " ++ e).
Proof.
  induction es as [|e0 es IH]; intros k [|i] e H; cbn in *; try discriminate.
  - inversion H; subst. rewrite Nat.add_0_r. reflexivity.
  - rewrite (IH (S k) i e H). do 3 f_equal. lia.
Qed.

(** X8. The link prompt always sends the same body, whatever the signal
    that follows: the four lines, marker then platform name, of the markers
    that have a value, in the order of the marker set, after the title when
    the title is too long; the cancel marker has no line.  The display has
    the invoking user's name, avatar and colour, the footer of the prompt,
    no image and no field. *)
Theorem link_display
    (env : Env) (c : Context) (w : World) :
  add_reactions_allowed (permissions_for (ctx_channel c) (ctx_me c)) = true ->
  fault env (List.length (calls w)) = None ->
  exists e o,
    ends_cleaned env (Link.start env c)
      {| obj := Link.init env; world := w |} (Some e) o /\
    headed (ctx_bot c) (ctx_author c) (Link.init env) e /\
    embed_description e =
      Some (join [10%N] (overflow (title (Link.init env)) ++ platform_lines)) /\
    described Link.platform_markers = platform_lines /\
    embed_image e = None /\ embed_fields e = [].
Proof.
  intros Hp Hf.
  destruct (Link_start_shown env c w) as (e & E & Hh & Hd & Hfs).
  exists e. eexists. split; [|split; [exact Hh | split; [exact Hd|]]].
  - unfold ends_cleaned. cbn [world]. rewrite E.
    apply prepared_session; [exact Link_result_reads | assumption..].
  - split; [apply described_platform_markers|].
    split; [|exact Hfs]. destruct Hh as (_ & _ & _ & Hi & _). exact Hi.
Qed.

(** Witness of X8: the link prompt with its own title. *)
Lemma link_display_witness :
  exists e o,
    ends_cleaned (Sample.env []) (Link.start (Sample.env []) (Sample.context true))
      {| obj := Link.init (Sample.env []); world := Sample.empty |} (Some e) o /\
    embed_description e = Some (join [10%N] platform_lines).
Proof.
  destruct (link_display (Sample.env []) (Sample.context true) Sample.empty
              eq_refl eq_refl) as (e & o & H & _ & Hd & _).
  exists e, o. split; [exact H|]. rewrite Hd. reflexivity.
Defined.



(** X10. The choice prompt sends one body line per entry, in the order of
    the entries, after the title when the title is too long: the line of
    the entry at position i, counted from 0, is the decimal of i + 1, a
    full stop, a space and the entry.  The display has the title, image and
    footer the prompt was constructed with, when they are not empty, and no
    field. *)
Theorem choose_display
    (env : Env) (c : Context) (es : list str) (tmo : Q)
    (ttl img ftr : option str) (w : World) :
  add_reactions_allowed (permissions_for (ctx_channel c) (ctx_me c)) = true ->
  fault env (List.length (calls w)) = None ->
  exists e o,
    ends_cleaned env (Choose.start env c)
      {| obj := Choose.init (Some es) tmo ttl img ftr; world := w |}
      (Some e) o /\
    embed_description e = Some (join [10%N] (overflow ttl ++ numbered 1 es)) /\
    List.length (numbered 1 es) = List.length es /\
    (forall i x, nth_error es i = Some x ->
       nth_error (numbered 1 es) i =
       Some (str_of_nat (S i) ++ lit ". " ++ x)) /\
    embed_title e = shown_title ttl /\
    embed_image e = shown img /\ embed_footer e = shown ftr /\
    embed_fields e = [].
Proof.
  intros Hp Hf.
  destruct (Choose_start_shown env c es tmo ttl img ftr w)
    as (e & E & (_ & _ & Ht & Hi & Hfo) & Hd & Hfs).
  exists e. eexists. split.
  - unfold ends_cleaned. cbn [world]. rewrite E.
    apply prepared_session; [exact Choose_result_reads | assumption..].
  - split; [exact Hd|]. split; [apply numbered_length|].
    split; [intros i x Hx; apply (numbered_nth es 1 i x Hx)|].
    auto.
Qed.

(** Witness of X10: the entries A, B, C. *)
Lemma choose_display_witness :
  exists e o,
    ends_cleaned (Sample.env [])
      (Choose.start (Sample.env []) (Sample.context true))
      {| obj := Sample.choose None; world := Sample.empty |} (Some e) o /\
    embed_description e = Some (lit "1. A" ++ [10%N] ++ lit "2. B" ++ [10%N] ++ lit "3. C").
Proof.
  destruct (choose_display (Sample.env []) (Sample.context true) Sample.abc
              (30 # 1) None None None Sample.empty eq_refl eq_refl)
    as (e & o & H & Hd & _).
  exists e, o. split; [exact H|]. rewrite Hd. vm_compute. reflexivity.
Defined.

(** ** What the prompts return *)

Lemma dict_get_values (d : list (str * pyval)) (k : str) :
  dict_get d k = PyNone \/ In (dict_get d k) (List.map snd d).
Proof.
  induction d as [|[k' v] d IH]; cbn; [left; reflexivity|].
  destruct (str_eqb k' k); [right; left; reflexivity|].
  destruct IH as [IH|IH]; [left; exact IH | right; right; exact IH].
Qed.

Lemma prepared_run env c self_result w rs body e p :
  (forall r s, snd (self_result r s) = s) ->
  add_reactions_allowed (permissions_for (ctx_channel c) (ctx_me c)) = true ->
  fault env (List.length (calls w)) = None ->
  fst (BasePaginator.start env self_result c
         {| obj := prepared c rs body e p; world := w |}) =
  match first_match (ctx_author c) (ctx_bot c) (rendered env w) rs
          (reaction_adds env) with
  | Some ev =>
      fst (self_result (fst ev)
             (waiting env {| obj := prepared c rs body e p; world := w |}))
  | None => Raise NoChoice
  end.
Proof.
  intros Hres Hp Hf.
  exact (start_run env self_result c
           {| obj := prepared c rs body e p; world := w |} c
           (ctx_author c) (ctx_bot c) rs Hres Hp eq_refl eq_refl eq_refl
           eq_refl Hf).
Qed.

(** X11. What the link prompt and the update prompt return is decided by
    the first signal their filter accepts: the value of its marker in the
    marker set.  So [start] returns [None] or one of pc, psn, xbl and
    nintendo-switch, or raises [NoChoice] when no signal is accepted. *)
Theorem link_outcomes
    (env : Env) (c : Context) (w : World) (pf un : str) :
  add_reactions_allowed (permissions_for (ctx_channel c) (ctx_me c)) = true ->
  fault env (List.length (calls w)) = None ->
  let found :=
    first_match (ctx_author c) (ctx_bot c) (rendered env w)
      (RDict Link.platform_markers) (reaction_adds env) in
  let outcome :=
    match found with
    | Some ev => Return (dict_get Link.platform_markers (emoji (fst ev)))
    | None => Raise NoChoice
    end in
  fst (Link.start env c {| obj := Link.init env; world := w |}) = outcome /\
  fst (Update.start env c {| obj := Update.init env pf un; world := w |}) =
    outcome /\
  In outcome
    [Raise NoChoice; Return PyNone; Return (PyStr (lit "pc"));
     Return (PyStr (lit "psn")); Return (PyStr (lit "xbl"));
     Return (PyStr (lit "nintendo-switch"))].
Proof.
  intros Hp Hf found outcome. split; [|split].
  - destruct (Link_start_prepared env c w) as (e & E & _). rewrite E.
    rewrite (prepared_run env c Link.result w _ _ e _ Link_result_reads Hp Hf).
    fold found. subst outcome. destruct found as [ev|]; [|reflexivity].
    rewrite (Link_result_run _ Link.platform_markers) by reflexivity.
    reflexivity.
  - destruct (Update_start_prepared env c w pf un) as (e & E & _). rewrite E.
    rewrite (prepared_run env c Update.result w _ _ e _ Link_result_reads Hp Hf).
    fold found. subst outcome. destruct found as [ev|]; [|reflexivity].
    unfold Update.result.
    rewrite (Link_result_run _ Link.platform_markers) by reflexivity.
    reflexivity.
  - subst outcome. destruct found as [ev|]; [|left; reflexivity].
    destruct (dict_get_values Link.platform_markers (emoji (fst ev))) as [H|H].
    + rewrite H. right; left; reflexivity.
    + cbn in H. rewrite <- !(or_comm False) in H. cbn. intuition congruence.
Qed.

(** Witness of X11: Alice selects the marker of xbl. *)
Lemma link_outcomes_witness :
  fst (Link.start
         (Sample.env [Sample.signal 500 (lit "<:xbl:679469487623503930>")
                        Sample.alice])
         (Sample.context true)
         {| obj := Link.init
                     (Sample.env
                        [Sample.signal 500 (lit "<:xbl:679469487623503930>")
                           Sample.alice]);
            world := Sample.empty |}) =
  Return (PyStr (lit "xbl")).
Proof.
  destruct (link_outcomes
              (Sample.env [Sample.signal 500 (lit "<:xbl:679469487623503930>")
                             Sample.alice])
              (Sample.context true) Sample.empty (lit "pc") (lit "Ana#1234")
              eq_refl eq_refl) as (H & _).
  rewrite H. vm_compute. reflexivity.
Defined.

(** ** More on attaching the markers *)

(** X12. When the message of the prompt no longer exists, [add_reactions]
    gives up after its first request: it requests the first marker, the
    platform answers that the message is unknown, and it returns; no other
    request is made and nothing is attached.  With an empty marker set it
    makes no request at all. *)
Theorem add_reactions_on_deleted_message
    (env : Env) (st : Store) (m : Message) (rs : Reactions) :
  message (obj st) = Some m ->
  reactions (obj st) = Some rs ->
  (forall x rest,
     markers rs = x :: rest ->
     lookup_message (message_id m) (posted (world st)) = None ->
     BasePaginator.add_reactions env st =
     (Return tt,
      {| obj := obj st;
         world := log_call (CallAddReaction (message_id m) x) (world st) |})) /\
  (markers rs = [] ->
   BasePaginator.add_reactions env st = (Return tt, st)).
Proof.
  intros Hm Hrs.
  assert (Hstart : BasePaginator.add_reactions env st =
                   BasePaginator.add_reactions_loop env (markers rs) st).
  { unfold BasePaginator.add_reactions; run. rewrite Hrs. reflexivity. }
  rewrite Hstart. split.
  - intros x rest -> Hgone. cbn [BasePaginator.add_reactions_loop].
    unfold bind at 1, try_except, add_reaction; run. rewrite Hm; cbn.
    destruct (fault env (List.length (calls (world st)))) as [[]|]; cbn;
      try reflexivity.
    rewrite Hgone. reflexivity.
  - intros ->. reflexivity.
Qed.

(** Witness of X12: the link prompt on message 500, which does not exist. *)
Lemma add_reactions_on_deleted_message_witness :
  BasePaginator.add_reactions (Sample.env [])
    {| obj := obj (Sample.session 500 (Link.init (Sample.env [])));
       world := Sample.empty |} =
  (Return tt,
   {| obj := obj (Sample.session 500 (Link.init (Sample.env [])));
      world :=
        log_call (CallAddReaction 500 (lit "<:battlenet:679469162724196387>"))
          Sample.empty |}).
Proof.
  destruct (add_reactions_on_deleted_message (Sample.env [])
              {| obj := obj (Sample.session 500 (Link.init (Sample.env [])));
                 world := Sample.empty |}
              {| message_id := 500 |} (RDict Link.platform_markers)
              eq_refl eq_refl) as (H & _).
  apply (H (lit "<:battlenet:679469162724196387>")
           (List.map fst (tl Link.platform_markers))); reflexivity.
Defined.

(** ** The markers of a choice prompt *)

Lemma markers_NoDup (l : list nat) :
  NoDup l -> NoDup (List.map Choose.marker l).
Proof.
  induction 1 as [|i l Hi Hl IH]; cbn; constructor; [|exact IH].
  rewrite in_map_iff. intros (j & E & Hj).
  apply marker_inj in E. subst. contradiction.
Qed.

Lemma numerals_NoDup (n : nat) : NoDup (numerals n).
Proof. unfold numerals. apply markers_NoDup, seq_NoDup. Qed.

Lemma numerals_length (n : nat) : List.length (numerals n) = n.
Proof. unfold numerals. rewrite length_map, length_seq. reflexivity. Qed.

(** X13. [start] gives a choice prompt just constructed one marker per
    entry, and these markers are pairwise distinct, however many entries
    there are: no two entries share a marker. *)
Theorem choose_markers_distinct
    (env : Env) (c : Context) (es : list str) (tmo : Q)
    (ttl img ftr : option str) (w : World) :
  exists st1 ms,
    Choose.start env c
      {| obj := Choose.init (Some es) tmo ttl img ftr; world := w |} =
    BasePaginator.start env Choose.result c st1 /\
    reactions (obj st1) = Some (RList ms) /\
    List.length ms = List.length es /\
    NoDup ms /\
    (forall i j x, nth_error ms i = Some x -> nth_error ms j = Some x -> i = j).
Proof.
  destruct (Choose_start_prepared env c es tmo ttl img ftr w) as (e & E & _).
  eexists. exists (numerals (List.length es)).
  split; [exact E|]. split; [reflexivity|].
  split; [apply numerals_length|]. split; [apply numerals_NoDup|].
  intros i j x Hi Hj.
  apply (proj1 (NoDup_nth_error (numerals (List.length es)))
           (numerals_NoDup _) i j).
  - apply nth_error_Some. congruence.
  - congruence.
Qed.

(** ** A choice prompt started again *)

Lemma list_index_app (l l' : list str) (x : str) (i : nat) :
  list_index l x = Some i -> list_index (l ++ l') x = Some i.
Proof.
  revert i. induction l as [|y l IH]; intros i; cbn; [discriminate|].
  destruct (str_eqb y x); [auto|].
  destruct (list_index l x) as [j|]; cbn; [|discriminate].
  intros E. rewrite (IH j eq_refl). exact E.
Qed.

(** X14. A choice prompt is not reset by [start]: started again, the
    prompt keeps the markers and the body lines of its earlier start and
    receives them once more, so the marker list and the body are doubled.
    Resolution is unchanged, since [index] finds the first position of a
    marker: the marker that encodes i still resolves to the entry at
    position i. *)
Theorem choose_started_again
    (env : Env) (c : Context) (p : Paginator) (w : World) (es : list str) :
  reactions p = Some (RList (numerals (List.length es))) ->
  entries p = Some es ->
  exists e st1,
    Choose.start env c {| obj := p; world := w |} =
    BasePaginator.start env Choose.result c st1 /\
    reactions (obj st1) =
      Some (RList (numerals (List.length es) ++ numerals (List.length es))) /\
    description (obj st1) =
      description p ++ overflow (title p) ++ numbered 1 es /\
    embed (obj st1) = Some e /\
    embed_description e =
      Some (join [10%N]
              (description p ++ overflow (title p) ++ numbered 1 es)) /\
    (forall i x r, nth_error es i = Some x ->
       emoji r = Choose.marker (S i) ->
       Choose.result r (waiting env st1) =
       (Return (PyStr x), waiting env st1)).
Proof.
  intros Hl He.
  destruct (Choose_start_appends env c p w es _ Hl He) as (e & E & Hd).
  exists e. eexists. split; [exact E|].
  split; [reflexivity|]. split; [reflexivity|]. split; [reflexivity|].
  split; [exact Hd|].
  intros i x r Hi Hr.
  assert (i < List.length es)%nat as Hlt
      by (apply nth_error_Some; congruence).
  pose proof (list_index_numerals (List.length es) 1 i Hlt) as Hidx.
  change (1 + i)%nat with (S i) in Hidx.
  fold (numerals (List.length es)) in Hidx.
  apply (list_index_app _ (numerals (List.length es))) in Hidx.
  unfold Choose.result, reactions_index, entries_getitem.
  unfold bind, get_self. cbn [fst snd].
  cbn [waiting obj reactions entries with_message prepared with_embed
       with_description with_reactions with_author with_bot with_ctx].
  rewrite Hr, Hidx. unfold ret. rewrite He, Hi. reflexivity.
Qed.

(** Witness of X14: the prompt over A, B, C as a first start leaves it. *)
Lemma choose_started_again_witness :
  exists e st1,
    Choose.start (Sample.env []) (Sample.context true)
      {| obj := with_description (numbered 1 Sample.abc)
                  (with_reactions (Some (RList (numerals 3)))
                     (Sample.choose None));
         world := Sample.empty |} =
    BasePaginator.start (Sample.env []) Choose.result (Sample.context true)
      st1 /\
    embed (obj st1) = Some e /\
    embed_description e =
      Some (join [10%N] (numbered 1 Sample.abc ++ numbered 1 Sample.abc)).
Proof.
  destruct (choose_started_again (Sample.env []) (Sample.context true)
              (with_description (numbered 1 Sample.abc)
                 (with_reactions (Some (RList (numerals 3)))
                    (Sample.choose None)))
              Sample.empty Sample.abc eq_refl eq_refl)
    as (e & st1 & E & _ & _ & He & Hd & _).
  exists e, st1. split; [exact E|]. split; [exact He|]. exact Hd.
Defined.

(** ** classes/exceptions.py *)

(** X15. [TooManyAccounts] can be constructed for the platforms pc and
    console only: for any other platform no [case] binds [what], and
    building the message raises [UnboundLocalError] instead.  That is so
    for the console identifiers of [PLATFORMS]: psn, xbl and
    nintendo-switch. *)
Theorem TooManyAccounts_platforms
    (platform username : str) (players : Z) :
  ((exists text,
      TooManyAccounts.init platform username players =
      TooManyAccounts.Message text) <->
   platform = lit "pc" \/ platform = lit "console") /\
  (In platform (List.map fst PLATFORMS) -> platform <> lit "pc" ->
   TooManyAccounts.init platform username players =
   TooManyAccounts.UnboundLocalError).
Proof.
  unfold TooManyAccounts.init. split.
  - destruct (str_eqb platform (lit "pc")) eqn:E1.
    + apply str_eqb_eq in E1. split; [auto | intros _; eexists; reflexivity].
    + destruct (str_eqb platform (lit "console")) eqn:E2.
      * apply str_eqb_eq in E2.
        split; [auto | intros _; eexists; reflexivity].
      * split.
        -- intros [text H]. discriminate H.
        -- intros [H|H]; apply str_eqb_eq in H; congruence.
  - intros Hin Hne.
    destruct (str_eqb platform (lit "pc")) eqn:E1;
      [apply str_eqb_eq in E1; contradiction|].
    cbn in Hin.
    destruct Hin as [H|[H|[H|[H|[]]]]]; subst platform;
      try reflexivity; contradiction.
Qed.

(** Witness of X15: the platform psn. *)
Lemma TooManyAccounts_platforms_witness :
  TooManyAccounts.init (lit "psn") (lit "Ana") 3 =
  TooManyAccounts.UnboundLocalError.
Proof.
  apply (TooManyAccounts_platforms (lit "psn") (lit "Ana") 3).
  - right; left; reflexivity.
  - intros H. apply lit_inj in H. discriminate H.
Defined.

(** ** cogs/meta.py *)

Lemma split_cons (sep : char) (s : str) :
  exists piece pieces, Meta.split sep s = piece :: pieces.
Proof.
  induction s as [|ch s (piece & pieces & IH)]; cbn; [eauto|].
  destruct (N.eqb ch sep); [eauto|]. rewrite IH. eauto.
Qed.

Lemma split_first (sep : char) (s : str) :
  nth_error (Meta.split sep s) 0 = Some (Meta.before sep s).
Proof.
  induction s as [|ch s IH]; cbn; [reflexivity|].
  destruct (N.eqb ch sep); [reflexivity|].
  destruct (split_cons sep s) as (piece & pieces & E).
  rewrite E in *. cbn in *. inversion IH; subst. reflexivity.
Qed.

Lemma split_second_none (sep : char) (s : str) :
  nth_error (Meta.split sep s) 1 = None <-> ~ In sep s.
Proof.
  induction s as [|ch s IH]; cbn; [tauto|].
  destruct (N.eqb_spec ch sep) as [E|E].
  - destruct (split_cons sep s) as (piece & pieces & Es). rewrite Es. cbn.
    split; [discriminate | intros H; elim H; left; exact E].
  - destruct (split_cons sep s) as (piece & pieces & Es).
    rewrite Es in *. cbn in *. rewrite IH. tauto.
Qed.

Lemma before_free (sep : char) (s : str) : ~ In sep (Meta.before sep s).
Proof.
  induction s as [|ch s IH]; cbn; [tauto|].
  destruct (N.eqb_spec ch sep) as [E|E]; cbn; [tauto|].
  intros [H|H]; [congruence | contradiction].
Qed.

Lemma split_free (sep : char) (s : str) :
  ~ In sep s -> Meta.split sep s = [s].
Proof.
  induction s as [|ch s IH]; cbn; [reflexivity|]. intros H.
  destruct (N.eqb_spec ch sep) as [E|E]; [elim H; left; exact E|].
  rewrite IH by tauto. reflexivity.
Qed.

Lemma split_app (sep : char) (s t : str) :
  ~ In sep s -> Meta.split sep (s ++ sep :: t) = s :: Meta.split sep t.
Proof.
  induction s as [|ch s IH]; cbn; intros H.
  - rewrite N.eqb_refl. reflexivity.
  - destruct (N.eqb_spec ch sep) as [E|E]; [elim H; left; exact E|].
    rewrite IH by tauto. reflexivity.
Qed.

(** Splitting joined lines gives the lines back. *)
Lemma split_join (sep : char) (line : str) (lines : list str) :
  (forall l, In l (line :: lines) -> ~ In sep l) ->
  Meta.split sep (join [sep] (line :: lines)) = line :: lines.
Proof.
  revert line. induction lines as [|l' lines IH]; intros line H.
  - cbn [join]. apply split_free, H. left; reflexivity.
  - change (join [sep] (line :: l' :: lines))
      with (line ++ sep :: join [sep] (l' :: lines)).
    rewrite split_app by (apply H; left; reflexivity).
    rewrite IH; [reflexivity|]. intros l Hl. apply H. right. exact Hl.
Qed.

(** X16. [help] on a text whose first word names nothing answers that the
    command was not found, quoting the whole text.  It fails only through a
    group: with [IndexError] when the first word names a group and the text
    has no space, so that there is no second word, and with
    [AssertionError] when the second word names a group again; a group
    followed by a word it does not hold gets the answer that the command
    was not found. *)
Theorem help_lookup_failures (bot : Meta.Bot) (ch : char) (rest : str) :
  let command := ch :: rest in
  let first := Meta.before 32%N command in
  let not_found :=
    Meta.Sent
      (Meta.Content (lit "Command **" ++ command ++ lit "** not found.")) in
  (Meta.tree bot first = None -> Meta.help bot (Some command) = not_found) /\
  (forall get_command,
     Meta.tree bot first = Some (Meta.Group get_command) ->
     (~ In 32%N command ->
      Meta.help bot (Some command) = Meta.Failed Meta.IndexError) /\
     (forall second,
        nth_error (Meta.split 32%N command) 1 = Some second ->
        (get_command second = None ->
         Meta.help bot (Some command) = not_found) /\
        (forall g, get_command second = Some (Meta.Group g) ->
           Meta.help bot (Some command) = Meta.Failed Meta.AssertionError))) /\
  (forall f, Meta.help bot (Some command) = Meta.Failed f ->
     exists get_command, Meta.tree bot first = Some (Meta.Group get_command)).
Proof.
  intros command first not_found. unfold Meta.help.
  change (match command with
          | [] => Meta.Sent (Meta.Rich (Meta.general_embed bot)
                               (Meta.website bot ++ lit "/commands"))
          | _ :: _ => ?x
          end) with x.
  cbv zeta. rewrite (split_first 32%N command). fold first.
  split; [|split].
  - intros ->. reflexivity.
  - intros get_command ->. split.
    + intros Hno. apply split_second_none in Hno. rewrite Hno. reflexivity.
    + intros second ->. split.
      * intros ->. reflexivity.
      * intros g ->. reflexivity.
  - intros f. destruct (Meta.tree bot first) as [[q d ps|g]|].
    + discriminate.
    + eauto.
    + discriminate.
Qed.

(** Witness of X16: the group profile, named alone. *)
Lemma help_lookup_failures_witness :
  Meta.help
    {| Meta.debug := false; Meta.website := lit "https://overbot.example";
       Meta.user_color := 7;
       Meta.tree := fun name =>
         if str_eqb name (lit "profile")
         then Some (Meta.Group (fun _ => None)) else None |}
    (Some (lit "profile")) =
  Meta.Failed Meta.IndexError.
Proof.
  destruct (help_lookup_failures
              {| Meta.debug := false;
                 Meta.website := lit "https://overbot.example";
                 Meta.user_color := 7;
                 Meta.tree := fun name =>
                   if str_eqb name (lit "profile")
                   then Some (Meta.Group (fun _ => None)) else None |}
              112%N (lit "rofile")) as (_ & H & _).
  destruct (H (fun _ => None) eq_refl) as (Hidx & _).
  apply Hidx. vm_compute. intuition discriminate.
Defined.

(** X17. When the first word of the text names a plain command, [help]
    shows that command and nothing after the first space is read: any text
    with that first word gets the same display. *)
Theorem help_reads_first_word
    (bot : Meta.Bot) (ch : char) (rest : str)
    (qualified_name description : str) (params : list Meta.Param) :
  Meta.tree bot (Meta.before 32%N (ch :: rest)) =
    Some (Meta.Command qualified_name description params) ->
  Meta.help bot (Some (ch :: rest)) =
  Meta.Sent
    (Meta.Rich (Meta.command_embed bot qualified_name description params)
       (Meta.website bot ++ lit "/commands")) /\
  (forall text,
     ch <> 32%N ->
     Meta.help bot (Some (Meta.before 32%N (ch :: rest) ++ 32%N :: text)) =
     Meta.help bot (Some (ch :: rest))).
Proof.
  intros Hc.
  assert (Hhelp : forall command,
            command <> [] ->
            Meta.before 32%N command = Meta.before 32%N (ch :: rest) ->
            Meta.help bot (Some command) =
            Meta.Sent
              (Meta.Rich
                 (Meta.command_embed bot qualified_name description params)
                 (Meta.website bot ++ lit "/commands"))).
  { intros [|ch' rest'] Hne Hb; [congruence|]. unfold Meta.help.
    rewrite (split_first 32%N (ch' :: rest')), Hb, Hc. reflexivity. }
  split.
  - apply Hhelp; [discriminate | reflexivity].
  - intros text Hch. rewrite (Hhelp (ch :: rest)) by (discriminate || reflexivity).
    apply Hhelp.
    + cbn. destruct (N.eqb_spec ch 32%N); [contradiction | discriminate].
    + generalize (before_free 32%N (ch :: rest)).
      generalize (Meta.before 32%N (ch :: rest)) as word.
      induction word as [|x word IH]; cbn; intros Hfree.
      * reflexivity.
      * destruct (N.eqb_spec x 32%N) as [E|E]; [elim Hfree; left; exact E|].
        rewrite IH by tauto. reflexivity.
Qed.

(** Witness of X17: the command ping followed by two more words. *)
Lemma help_reads_first_word_witness :
  Meta.help
    {| Meta.debug := false; Meta.website := lit "https://overbot.example";
       Meta.user_color := 7;
       Meta.tree := fun name =>
         if str_eqb name (lit "ping")
         then Some (Meta.Command (lit "ping") (lit "Shows latency") [])
         else None |}
    (Some (lit "ping me now")) =
  Meta.Sent
    (Meta.Rich
       (Meta.command_embed
          {| Meta.debug := false; Meta.website := lit "https://overbot.example";
             Meta.user_color := 7;
             Meta.tree := fun name =>
               if str_eqb name (lit "ping")
               then Some (Meta.Command (lit "ping") (lit "Shows latency") [])
               else None |}
          (lit "ping") (lit "Shows latency") [])
       (lit "https://overbot.example/commands")).
Proof.
  destruct (help_reads_first_word
              {| Meta.debug := false;
                 Meta.website := lit "https://overbot.example";
                 Meta.user_color := 7;
                 Meta.tree := fun name =>
                   if str_eqb name (lit "ping")
                   then Some (Meta.Command (lit "ping") (lit "Shows latency") [])
                   else None |}
              112%N (lit "ing me now") (lit "ping") (lit "Shows latency") []
              eq_refl) as (H & _).
  exact H.
Defined.

Lemma board_app get_guild (l l' : list Meta.Row) :
  forall k,
    Meta.board get_guild k (l ++ l') =
    Meta.board get_guild k l ++ Meta.board get_guild (k + List.length l) l'.
Proof.
  induction l as [|row l IH]; intros k; cbn [app Meta.board List.length].
  - rewrite Nat.add_0_r. reflexivity.
  - rewrite IH. replace (S k + List.length l)%nat
      with (k + S (List.length l))%nat by lia.
    destruct (get_guild (Meta.guild_id row)); reflexivity.
Qed.

Lemma board_length get_guild (l : list Meta.Row) :
  forall k,
    List.length (Meta.board get_guild k l) =
    List.length
      (filter (fun row =>
                 match get_guild (Meta.guild_id row) with
                 | Some _ => true
                 | None => false
                 end) l).
Proof.
  induction l as [|row l IH]; intros k; cbn; [reflexivity|].
  destruct (get_guild (Meta.guild_id row)); cbn; rewrite IH; reflexivity.
Qed.

(** X18. The board of [topweekly] has one line for every row of the query
    whose guild the bot knows, in the order of the rows, and the number a
    line starts with is the position of its row in the query, counted from
    1, not the position of the line on the board: a row whose guild is
    unknown is left out and leaves a gap in the numbering. *)
Theorem topweekly_ranks
    (get_guild : Z -> option str) (pre post : list Meta.Row)
    (row : Meta.Row) (g : str) :
  get_guild (Meta.guild_id row) = Some g ->
  let guilds := pre ++ row :: post in
  nth_error (Meta.board get_guild 1 guilds)
    (List.length (Meta.board get_guild 1 pre)) =
  Some (str_of_nat (S (List.length pre)) ++ lit ". **" ++ g ++
        lit "** ran a total of **" ++ str_of_Z (Meta.commands row) ++
        lit "** commands") /\
  List.length (Meta.board get_guild 1 guilds) =
  List.length
    (filter (fun row =>
               match get_guild (Meta.guild_id row) with
               | Some _ => true
               | None => false
               end) guilds) /\
  (List.length (Meta.board get_guild 1 pre) <= List.length pre)%nat.
Proof.
  intros Hg guilds. subst guilds. split; [|split].
  - rewrite board_app, nth_error_app2 by lia. rewrite Nat.sub_diag.
    cbn [Meta.board]. rewrite Hg. reflexivity.
  - apply board_length.
  - rewrite board_length. apply filter_length_le.
Qed.

(** Witness of X18: two rows, the guild of the first is unknown. *)
Lemma topweekly_ranks_witness :
  Meta.board (fun id => if id =? 20 then Some (lit "Overwatch") else None) 1
    [ {| Meta.guild_id := 10; Meta.commands := 9 |};
      {| Meta.guild_id := 20; Meta.commands := 4 |} ] =
  [lit "2. **Overwatch** ran a total of **4** commands"].
Proof.
  destruct (topweekly_ranks
              (fun id => if id =? 20 then Some (lit "Overwatch") else None)
              [ {| Meta.guild_id := 10; Meta.commands := 9 |} ] []
              {| Meta.guild_id := 20; Meta.commands := 4 |}
              (lit "Overwatch") eq_refl) as (H & _).
  vm_compute in H |- *. reflexivity.
Defined.

Lemma In_firstn_In {A} (n : nat) (l : list A) (x : A) :
  In x (firstn n l) -> In x l.
Proof.
  intros H. rewrite <- (firstn_skipn n l). apply in_or_app. left. exact H.
Qed.

Lemma In_app_free (sep : char) (s t : str) :
  ~ In sep s -> ~ In sep t -> ~ In sep (s ++ t).
Proof. intros Hs Ht H. apply in_app_or in H. tauto. Qed.

Lemma lit_free (s : string) :
  forallb (fun a => negb (N.eqb (N_of_ascii a) 10%N))
          (list_ascii_of_string s) = true ->
  ~ In 10%N (lit s).
Proof.
  unfold lit. induction (list_ascii_of_string s) as [|a l IH]; cbn; [tauto|].
  rewrite andb_true_iff, negb_true_iff, N.eqb_neq. intros [Ha Hl] [H|H].
  - congruence.
  - exact (IH Hl H).
Qed.

(** A formatted commit is one line. *)
Lemma format_commit_free (commit : Meta.Commit) :
  ~ In 10%N (Meta.commit_hex commit) -> ~ In 10%N (Meta.relative commit) ->
  ~ In 10%N (Meta.format_commit commit).
Proof.
  intros Hhex Hrel. unfold Meta.format_commit.
  repeat apply In_app_free;
    try (apply lit_free; vm_compute; reflexivity);
    try assumption.
  - intros H. apply Hhex. eapply In_firstn_In. exact H.
  - apply before_free.
Qed.

(** X19. [get_latest_commits] shows one line per commit and at most
    [count] commits, the latest first, whatever the commit messages are: of
    a message only the text before its first line break is shown, so that
    splitting the result at the line breaks gives back the formatted
    commits one by one.  The hashes and the relative times are taken to be
    free of line breaks. *)
Theorem latest_commits_lines (walk : list Meta.Commit) (count : nat) :
  (forall commit, In commit walk ->
     ~ In 10%N (Meta.commit_hex commit) /\
     ~ In 10%N (Meta.relative commit)) ->
  walk <> [] -> count <> O ->
  Meta.split 10%N (Meta.get_latest_commits walk count) =
    List.map Meta.format_commit (firstn count walk) /\
  List.length (Meta.split 10%N (Meta.get_latest_commits walk count)) =
    Nat.min count (List.length walk).
Proof.
  intros Hfree Hwalk Hcount.
  assert (E : Meta.split 10%N (Meta.get_latest_commits walk count) =
              List.map Meta.format_commit (firstn count walk)).
  { unfold Meta.get_latest_commits.
    destruct walk as [|c0 walk]; [congruence|].
    destruct count as [|count]; [congruence|].
    cbn [firstn List.map]. apply split_join.
    intros l Hl. change (In l (List.map Meta.format_commit
                                 (firstn (S count) (c0 :: walk)))) in Hl.
    apply in_map_iff in Hl. destruct Hl as (commit & <- & Hin).
    apply In_firstn_In in Hin. destruct (Hfree commit Hin) as [Hh Hr].
    apply format_commit_free; assumption. }
  split; [exact E|].
  rewrite E, length_map, length_firstn. reflexivity.
Qed.

(** Witness of X19: one commit whose message has two lines. *)
Lemma latest_commits_lines_witness :
  Meta.split 10%N
    (Meta.get_latest_commits
       [ {| Meta.commit_message := lit "Fix help" ++ [10%N] ++ lit "Details.";
            Meta.commit_hex := lit "0a1b2c3d4e";
            Meta.relative := lit "<t:1700000000:R>" |} ] 3) =
  [lit "[`0a1b2c`](https://github.com/davidetacchini/overbot/commit/0a1b2c3d4e) Fix help (<t:1700000000:R>)"].
Proof.
  destruct (latest_commits_lines
              [ {| Meta.commit_message :=
                     lit "Fix help" ++ [10%N] ++ lit "Details.";
                   Meta.commit_hex := lit "0a1b2c3d4e";
                   Meta.relative := lit "<t:1700000000:R>" |} ] 3)
    as (H & _).
  - intros commit [<-|[]]. split; vm_compute; intuition discriminate.
  - discriminate.
  - discriminate.
  - rewrite H. vm_compute. reflexivity.
Defined.

(** ** bot.py *)

(** X20. In a guild, [get_pre] yields the mentions of the bot followed by
    what the query returned for the guild, whether or not that is the
    default prefix: the comparison with the default changes nothing, and a
    guild without a row gets [None] as its prefix.  Outside a guild it
    yields the default prefix alone, without the mentions. *)
Theorem get_pre_prefixes
    (default_prefix : str) (mentions : list pyval) (fetchval : Z -> pyval) :
  (forall id,
     BotPy.get_pre default_prefix mentions fetchval (Some id) =
     BotPy.Several (mentions ++ [fetchval id])) /\
  BotPy.get_pre default_prefix mentions fetchval None =
  BotPy.Single default_prefix.
Proof.
  split; [|reflexivity]. intros id. unfold BotPy.get_pre, BotPy.when_mentioned_or.
  destruct (fetchval id) as [|s]; cbn; [reflexivity|].
  destruct (str_eqb s default_prefix) eqn:E; cbn; [|reflexivity].
  apply str_eqb_eq in E. subst. reflexivity.
Qed.
